(** * endodoncia: build, preview and publish scripts

    A shallow embedding of the three Python scripts of the repository
    ([build.py], [serve.py], [deploy.py]) and the properties their
    specification states about them.

    Layout:
    - [Py]       the few Python built-ins the scripts rely on
                 (truthiness, [in] on strings, [bytes.hex], [str(int)]);
    - [Pathlib]  directory trees and the [pathlib] operations used
                 ([rglob], [as_posix], [suffix]);
    - [Deploy]   [deploy.py]: upload of [dist/] and CDN invalidation;
    - [Build]    [build.py]: cleaning [dist/], copying assets, rendering;
    - [Serve]    [serve.py]: the preview server's start-up path.

    External services (the object store, the CDN, the template engine, the
    socket layer, the entropy source) are inputs of the model: a world record
    says how each of them answers, and the scripts are run against it. *)

From Stdlib Require Import String Ascii List ZArith Lia Bool DecimalString.
From stdpp Require Import base gmap strings list.

Open Scope string_scope.
Open Scope list_scope.

(* ===================================================================== *)
(** * Python built-ins *)
(* ===================================================================== *)

Module Py.

(** [bool(s)] for a [str]: only the empty string is falsy. *)
Definition truthy (s : string) : bool := negb (String.eqb s "").

(** [bool(x)] for an [Optional[str]]: [None] and [""] are falsy. *)
Definition truthy_opt (o : option string) : bool :=
  match o with
  | Some s => truthy s
  | None => false
  end.

(** [needle in hay] on strings. *)
Fixpoint contains (needle hay : string) : bool :=
  if String.prefix needle hay then true
  else match hay with
       | EmptyString => false
       | String _ rest => contains needle rest
       end.

(** [s.rfind(c)] for a one-character [c]; [None] stands for [-1]. *)
Fixpoint rfind (c : ascii) (s : string) : option nat :=
  match s with
  | EmptyString => None
  | String a rest =>
      match rfind c rest with
      | Some i => Some (S i)
      | None => if Ascii.eqb a c then Some 0 else None
      end
  end.

(** [s[i:]]. *)
Fixpoint drop_chars (i : nat) (s : string) : string :=
  match i, s with
  | 0, _ => s
  | S j, String _ rest => drop_chars j rest
  | S _, EmptyString => EmptyString
  end.

(** [str(n)] / [f"{n}"] for an [int]. *)
Definition str_int (n : Z) : string := NilZero.string_of_int (Z.to_int n).

(** One lowercase hexadecimal digit. *)
Definition hex_digit (d : N) : ascii :=
  match d with
  | 0%N => "0" | 1%N => "1" | 2%N => "2" | 3%N => "3"
  | 4%N => "4" | 5%N => "5" | 6%N => "6" | 7%N => "7"
  | 8%N => "8" | 9%N => "9" | 10%N => "a" | 11%N => "b"
  | 12%N => "c" | 13%N => "d" | 14%N => "e" | _ => "f"
  end%char.

(** [bytes.hex()]: two lowercase digits per byte, high nibble first. *)
Fixpoint hex (bs : list Byte.byte) : string :=
  match bs with
  | [] => EmptyString
  | b :: rest =>
      String (hex_digit (Byte.to_N b / 16))
        (String (hex_digit (Byte.to_N b mod 16)) (hex rest))
  end.

(** Value of a hexadecimal digit, the inverse of [hex_digit]. *)
Definition unhex_digit (c : ascii) : N :=
  let n := N_of_ascii c in
  if (n <? 58)%N then (n - 48)%N else (n - 87)%N.

Definition unhex_pair (hi lo : ascii) : option Byte.byte :=
  Byte.of_N (16 * unhex_digit hi + unhex_digit lo).

(** [s.lower()] on the ASCII letters. *)
Definition lower_char (c : ascii) : ascii :=
  let n := N_of_ascii c in
  if ((65 <=? n) && (n <=? 90))%N then ascii_of_N (n + 32) else c.

Fixpoint lower (s : string) : string :=
  match s with
  | EmptyString => EmptyString
  | String c rest => String (lower_char c) (lower rest)
  end.

End Py.

(* ===================================================================== *)
(** * Directory trees and pathlib *)
(* ===================================================================== *)

Module Pathlib.

(** What is found at a path: a regular file with its bytes, or a
    directory with its entries in the order [os.scandir] lists them. *)
#[warnings="-register-all"]
Inductive node :=
| File (content : string)
| Dir (entries : list (string * node)).

(** A path relative to some root, as its components ([PurePath.parts]). *)
Definition rel_path := list string.

(** [rel.as_posix()]: the components joined with forward slashes. *)
Definition as_posix (rel : rel_path) : string := String.concat "/" rel.

(** [str(root / rel)] on a host whose separator is [sep], where
    [root_str] is [str(root)]. *)
Definition str_under (sep root_str : string) (rel : rel_path) : string :=
  root_str +:+ sep +:+ String.concat sep rel.

(** [path.name]: the last component. *)
Definition name (rel : rel_path) : string := List.last rel "".

(** [path.suffix], as [pathlib] defines it:
    [i = name.rfind('.')], and the suffix is [name[i:]] when
    [0 < i < len(name) - 1], the empty string otherwise. *)
Definition suffix_of_name (nm : string) : string :=
  match Py.rfind "." nm with
  | Some i =>
      if ((0 <? i) && (i <? String.length nm - 1))%nat
      then Py.drop_chars i nm
      else ""
  | None => ""
  end.

Definition suffix (rel : rel_path) : string := suffix_of_name (name rel).

(** [root.rglob("*")] run on the tree found at [root]: every path below
    the root, directories included, each with what is found there.
    pathlib leaves the order of the enumeration open; the model lists an
    entry, then what is below it, in scandir order.  The upload loop
    below is defined over an arbitrary enumeration, so nothing proved
    about it depends on this choice. *)
Fixpoint rglob_from (rel : rel_path) (n : node) : list (rel_path * node) :=
  match n with
  | File _ => []
  | Dir entries =>
      flat_map
        (fun e => (rel ++ [fst e], snd e) :: rglob_from (rel ++ [fst e]) (snd e))
        entries
  end.

Definition rglob (root : option node) : list (rel_path * node) :=
  match root with
  | Some n => rglob_from [] n
  | None => []
  end.

(** [path.exists()]. *)
Definition exists_ (root : option node) : bool :=
  match root with Some _ => true | None => false end.

(** The regular files of an enumeration, in order. *)
Definition regular_files (l : list (rel_path * node)) : list (rel_path * string) :=
  flat_map (fun e => match snd e with
                     | File body => [(fst e, body)]
                     | Dir _ => []
                     end) l.

End Pathlib.

(* ===================================================================== *)
(** * deploy.py *)
(* ===================================================================== *)

Module Deploy.
Import Pathlib.

(** Exceptions that reach the script.  [ClientError] stands for
    [botocore.exceptions.ClientError] and its subclasses, the only class
    the script's handlers name; [OtherException] is an exception of any
    class outside that hierarchy (a connection or credentials error of
    the SDK, an [OSError], ...).  Each carries [str(e)]. *)
Inductive exn :=
| ClientError (text : string)
| RuntimeError (text : string)
| SystemExit (text : string)
| OtherException (cls text : string).

(** Arguments of [s3.upload_file(Filename, Bucket, Key, ExtraArgs=...)]. *)
Record UploadRequest := {
  Filename : string;
  Bucket : string;
  Key : string;
  ExtraArgs : gmap string string
}.

(** Arguments of [cf.create_invalidation(...)]: the distribution and the
    invalidation batch ([Paths.Quantity], [Paths.Items],
    [CallerReference]). *)
Record InvalidationRequest := {
  DistributionId : string;
  Quantity : Z;
  Items : list string;
  CallerReference : string
}.

(** A request sent over the network. *)
Inductive call :=
| UploadFile (r : UploadRequest)
| CreateInvalidation (r : InvalidationRequest).

(** An object held by a bucket. *)
Record S3Object := {
  body : string;
  content_type : option string
}.

(** Everything the script reads and every service it talks to.
    - [environ]: [os.environ];
    - [dist_dir], [sep]: [str(DIST_DIR)] and the host's path separator
      ([DIST_DIR] is [PROJECT_ROOT / "dist"], whose value depends on
      where the package is installed);
    - [dist]: what is on disk at [DIST_DIR], if anything;
    - [s3_fault]: the exception [upload_file] raises for a request, if
      any;
    - [cf_answer]: what [create_invalidation] does for a request: raise,
      or answer with [resp['Invalidation']['Id']];
    - [entropy]: the byte stream behind [os.urandom]. *)
Record World := {
  environ : gmap string string;
  dist_dir : string;
  sep : string;
  dist : option node;
  s3_fault : UploadRequest -> option exn;
  cf_answer : InvalidationRequest -> exn + string;
  entropy : nat -> Byte.byte
}.

(** What a run changes: the lines printed, the requests sent, the
    objects in the buckets (by bucket name and key), and how many bytes
    of entropy were consumed. *)
Record State := {
  stdout : list string;
  calls : list call;
  store : gmap (string * string) S3Object;
  drawn : nat
}.

Definition initial : State :=
  {| stdout := []; calls := []; store := ∅; drawn := 0 |}.

(** How a computation ends. *)
Inductive result (A : Type) :=
| Ok (a : A)
| Raise (e : exn).
Arguments Ok {A} a.
Arguments Raise {A} e.

(** Computations: state passing with exceptions. *)
Definition M (A : Type) : Type := State -> result A * State.

Definition ret {A} (a : A) : M A := fun st => (Ok a, st).

Definition raise {A} (e : exn) : M A := fun st => (Raise e, st).

Definition bind {A B} (c : M A) (k : A -> M B) : M B :=
  fun st =>
    match c st with
    | (Ok a, st') => k a st'
    | (Raise e, st') => (Raise e, st')
    end.

Notation "'let*' x ':=' c 'in' k" := (bind c (fun x => k))
  (at level 10, x name, c at level 100, k at level 200).
Notation "c ;;; k" := (bind c (fun _ => k))
  (at level 100, k at level 200, right associativity).

(** [try: body / except ClientError as e: handler(str(e))]. *)
Definition try_except_ClientError {A} (body : M A) (handler : string -> M A) : M A :=
  fun st =>
    match body st with
    | (Raise (ClientError text), st') => handler text st'
    | other => other
    end.

(** [for x in xs: body(x)]. *)
Fixpoint for_each {A} (xs : list A) (body : A -> M unit) : M unit :=
  match xs with
  | [] => ret tt
  | x :: rest => body x ;;; for_each rest body
  end.

Definition print (line : string) : M unit :=
  fun st =>
    (Ok tt, {| stdout := stdout st ++ [line]; calls := calls st;
               store := store st; drawn := drawn st |}).

(** [os.urandom(n)]. *)
Definition urandom (w : World) (n : nat) : M (list Byte.byte) :=
  fun st =>
    (Ok (map (entropy w) (seq (drawn st) n)),
     {| stdout := stdout st; calls := calls st;
        store := store st; drawn := drawn st + n |}).

(** [s3.upload_file(...)]: the request goes out; the service either
    raises or stores the file's bytes under the key, with the content
    type of [ExtraArgs] when there is one. *)
Definition upload_file (w : World) (r : UploadRequest) (bytes : string) : M unit :=
  fun st =>
    let sent := calls st ++ [UploadFile r] in
    match s3_fault w r with
    | Some e =>
        (Raise e, {| stdout := stdout st; calls := sent;
                     store := store st; drawn := drawn st |})
    | None =>
        (Ok tt, {| stdout := stdout st; calls := sent;
                   store := <[(Bucket r, Key r) :=
                               {| body := bytes;
                                  content_type := ExtraArgs r !! "ContentType" |}]>
                              (store st);
                   drawn := drawn st |})
    end.

(** [cf.create_invalidation(...)], answering with the invalidation id. *)
Definition create_invalidation (w : World) (r : InvalidationRequest) : M string :=
  fun st =>
    let st' := {| stdout := stdout st; calls := calls st ++ [CreateInvalidation r];
                  store := store st; drawn := drawn st |} in
    match cf_answer w r with
    | inl e => (Raise e, st')
    | inr id => (Ok id, st')
    end.

(** Line 25: [key = f"{prefix}{rel.as_posix()}" if prefix else rel.as_posix()]. *)
Definition object_key (prefix : string) (rel : rel_path) : string :=
  if Py.truthy prefix then prefix +:+ as_posix rel else as_posix rel.

(** Lines 26-32: the [ExtraArgs] dictionary, filled from [path.suffix]. *)
Definition extra_args (rel : rel_path) : gmap string string :=
  if String.eqb (suffix rel) ".html" then
    <["ContentType" := "text/html; charset=utf-8"]> ∅
  else if String.eqb (suffix rel) ".css" then
    <["ContentType" := "text/css; charset=utf-8"]> ∅
  else if String.eqb (suffix rel) ".js" then
    <["ContentType" := "application/javascript; charset=utf-8"]> ∅
  else ∅.

(** The request the loop body builds for the file at [rel]. *)
Definition upload_request (w : World) (bucket_name prefix : string) (rel : rel_path)
  : UploadRequest :=
  {| Filename := str_under (sep w) (dist_dir w) rel;
     Bucket := bucket_name;
     Key := object_key prefix rel;
     ExtraArgs := extra_args rel |}.

(** Lines 22-37: the body of the loop, for one enumerated path
    ([path.is_dir()] is the case [Dir]). *)
Definition upload_path (w : World) (bucket_name prefix : string)
    (entry : rel_path * node) : M unit :=
  match snd entry with
  | Dir _ => ret tt
  | File bytes =>
      let rel := fst entry in
      let r := upload_request w bucket_name prefix rel in
      try_except_ClientError
        (upload_file w r bytes ;;;
         print ("Uploaded s3://" +:+ bucket_name +:+ "/" +:+ Key r))
        (fun e =>
           raise (RuntimeError
                    ("Failed to upload " +:+ Filename r +:+ " -> " +:+ Key r
                     +:+ ": " +:+ e)))
  end.

(** The loop over an enumeration of paths. *)
Definition upload_paths (w : World) (bucket_name prefix : string)
    (paths : list (rel_path * node)) : M unit :=
  for_each paths (upload_path w bucket_name prefix).

(** Making the client ([boto3.client("s3")]) sends nothing; it is taken
    to succeed, here and in [invalidate_cloudfront]. *)
Definition upload_directory_to_s3 (w : World) (bucket_name prefix : string) : M unit :=
  upload_paths w bucket_name prefix (rglob (dist w)).

(** The caller reference of line 50. *)
Definition caller_reference (random : list Byte.byte) : string :=
  "endodoncia-" +:+ Py.hex random.

Definition invalidate_cloudfront (w : World) (distribution_id : option string) : M unit :=
  match distribution_id with
  | Some id =>
      if Py.truthy id then
        try_except_ClientError
          (let* random := urandom w 8 in
           let* resp_id :=
             create_invalidation w
               {| DistributionId := id;
                  Quantity := 1;
                  Items := ["/*"];
                  CallerReference := caller_reference random |} in
           print ("Invalidation created: " +:+ resp_id))
          (fun e => raise (RuntimeError ("Failed to create invalidation: " +:+ e)))
      else ret tt
  | None => ret tt
  end.

Definition main (w : World) : M unit :=
  let bucket := environ w !! "AWS_S3_BUCKET" in
  if negb (Py.truthy_opt bucket) then
    raise (SystemExit "AWS_S3_BUCKET environment variable is required")
  else
    let prefix := default "" (environ w !! "AWS_S3_PREFIX") in
    let distribution_id := environ w !! "CLOUDFRONT_DIST_ID" in
    if negb (exists_ (dist w)) then
      raise (SystemExit "dist/ not found. Run `uv run build-site` first.")
    else
      upload_directory_to_s3 w (default "" bucket) prefix ;;;
      invalidate_cloudfront w distribution_id.

(** The invalidation requests among the calls of a run. *)
Definition invalidations (cs : list call) : list InvalidationRequest :=
  flat_map (fun c => match c with
                     | CreateInvalidation r => [r]
                     | UploadFile _ => []
                     end) cs.

(** The upload requests among the calls of a run. *)
Definition uploads (cs : list call) : list UploadRequest :=
  flat_map (fun c => match c with
                     | UploadFile r => [r]
                     | CreateInvalidation _ => []
                     end) cs.

(** ** Notions used to state what a run did *)

(** The calls a computation adds when it is run from [st]. *)
Definition sent_by {A} (c : M A) (st : State) : list call :=
  drop (length (calls st)) (calls (snd (c st))).

(** The requests the loop would build for an enumeration, one per
    regular file and in order, each with the file's bytes. *)
Definition planned (w : World) (bucket_name prefix : string)
    (paths : list (rel_path * node)) : list (UploadRequest * string) :=
  map (fun f => (upload_request w bucket_name prefix (fst f), snd f))
      (regular_files paths).

(** The requests of a plan up to and including the first one the
    service refuses. *)
Fixpoint attempted (w : World) (plan : list (UploadRequest * string))
  : list UploadRequest :=
  match plan with
  | [] => []
  | (r, _) :: rest =>
      r :: match s3_fault w r with
           | Some _ => []
           | None => attempted w rest
           end
  end.

(** The first refused request of a plan, with the exception raised. *)
Fixpoint first_fault (w : World) (plan : list (UploadRequest * string))
  : option (UploadRequest * exn) :=
  match plan with
  | [] => None
  | (r, _) :: rest =>
      match s3_fault w r with
      | Some e => Some (r, e)
      | None => first_fault w rest
      end
  end.

(** What leaves the loop when [upload_file] raises [e] for request [r]:
    the handler's [RuntimeError] for a [ClientError], [e] itself
    otherwise. *)
Definition upload_failure (r : UploadRequest) (e : exn) : exn :=
  match e with
  | ClientError text =>
      RuntimeError ("Failed to upload " +:+ Filename r +:+ " -> " +:+ Key r
                    +:+ ": " +:+ text)
  | other => other
  end.

(** What leaves [invalidate_cloudfront] when [create_invalidation]
    raises [e]. *)
Definition invalidation_failure (e : exn) : exn :=
  match e with
  | ClientError text => RuntimeError ("Failed to create invalidation: " +:+ text)
  | other => other
  end.

(** The configuration [main] reads. *)
Definition bucket_of (w : World) : string := default "" (environ w !! "AWS_S3_BUCKET").
Definition prefix_of (w : World) : string := default "" (environ w !! "AWS_S3_PREFIX").
Definition distribution_of (w : World) : option string := environ w !! "CLOUDFRONT_DIST_ID".

(** [main] gets past its two checks. *)
Definition configured (w : World) : bool :=
  Py.truthy_opt (environ w !! "AWS_S3_BUCKET") && exists_ (dist w).

(** The invalidation request [invalidate_cloudfront] builds when it is
    entered in state [st]: none without a distribution id. *)
Definition invalidation_for (w : World) (distribution_id : option string) (st : State)
  : list InvalidationRequest :=
  match distribution_id with
  | Some id =>
      if Py.truthy id then
        [ {| DistributionId := id;
             Quantity := 1;
             Items := ["/*"];
             CallerReference :=
               caller_reference (map (entropy w) (seq (drawn st) 8)) |} ]
      else []
  | None => []
  end.

(** The same for a publish run started in [st] (the upload loop draws
    no entropy). *)
Definition invalidation_of (w : World) (st : State) : list InvalidationRequest :=
  invalidation_for w (distribution_of w) st.

(** How [invalidate_cloudfront] ends for the request it built. *)
Definition invalidation_result (w : World) (reqs : list InvalidationRequest)
  : result unit :=
  match reqs with
  | [] => Ok tt
  | r :: _ =>
      match cf_answer w r with
      | inl e => Raise (invalidation_failure e)
      | inr _ => Ok tt
      end
  end.

(** The plan of a publish run. *)
Definition plan_of (w : World) : list (UploadRequest * string) :=
  planned w (bucket_of w) (prefix_of w) (rglob (dist w)).

End Deploy.

(* ===================================================================== *)
(** * build.py *)
(* ===================================================================== *)

Module Build.
Import Pathlib.

(** No handler in [build.py] looks at the class of an exception: one
    constructor carries the class name and [str(e)]. *)
Inductive exn :=
| Exception (cls text : string).

(** Values of the site context: a string, or the list of service
    entries (each a small dictionary). *)
Inductive value :=
| Str (s : string)
| Entries (items : list (gmap string string)).

Definition service (title slug : string) : gmap string string :=
  <["slug" := slug]> (<["title" := title]> ∅).

Definition get_site_context : gmap string value :=
  list_to_map
    [ ("site_phone", Str "+56 9 4160 3277");
      ("site_phone_link", Str "tel:+56941603277");
      ("site_address", Str "Av. Las Condes 10465 oficina 116, Las Condes");
      ("site_title", Str "Tratamiento de Conductos (Endodoncia)");
      ("hero_title", Str "Tratamiento de Conductos");
      ("hero_subtitle", Str "Atención precisa y cómoda con tecnología de vanguardia");
      ("cta_referral", Str "Formulario de Referencia");
      ("cta_appointment", Str "Solicitar Cita");
      ("menu_home", Str "Inicio");
      ("menu_about", Str "Sobre Nosotros");
      ("menu_services", Str "Servicios");
      ("menu_contact", Str "Contacto");
      ("services",
       Entries
         [ service "Tratamiento de Conductos" "root-canal-treatment";
           service "Retratamiento de Conductos" "root-canal-retreatment";
           service "Microcirugía Endodóntica" "endodontic-microsurgery";
           service "Trauma Dental" "dental-trauma";
           service "Blanqueamiento Interno" "internal-bleaching" ]);
      ("specialist_name", Str "Andrés Morales Jalilie");
      ("specialist_title", Str "Endodoncista");
      ("specialist_bio",
       Str ("Endodoncista enfocado en terapias de conservación dental, con experiencia en"
            +:+ " técnicas microquirúrgicas y el uso de microscopio operatorio.")) ].

(** A loaded template is what it renders to for a context:
    [template.render] on the unpacked context raises or returns the
    markup. *)
Definition template := gmap string value -> exn + string.

(** What the build reads: the assets tree at [ASSETS_DIR] (if any), the
    template engine's answer to [env.get_template(name)] for the
    templates directory, and [str(DIST_DIR)]. *)
Record World := {
  assets : option node;
  get_template : string -> exn + template;
  dist_dir : string
}.

(** What the build changes: the tree at [DIST_DIR] and the lines
    printed. *)
Record State := {
  dist : option node;
  stdout : list string
}.

Inductive result (A : Type) :=
| Ok (a : A)
| Raise (e : exn).
Arguments Ok {A} a.
Arguments Raise {A} e.

Definition M (A : Type) : Type := State -> result A * State.

Definition ret {A} (a : A) : M A := fun st => (Ok a, st).
Definition raise {A} (e : exn) : M A := fun st => (Raise e, st).
Definition bind {A B} (c : M A) (k : A -> M B) : M B :=
  fun st =>
    match c st with
    | (Ok a, st') => k a st'
    | (Raise e, st') => (Raise e, st')
    end.

Notation "'let*' x ':=' c 'in' k" := (bind c (fun x => k))
  (at level 10, x name, c at level 100, k at level 200).
Notation "c ;;; k" := (bind c (fun _ => k))
  (at level 100, k at level 200, right associativity).

Fixpoint for_each {A} (xs : list A) (body : A -> M unit) : M unit :=
  match xs with
  | [] => ret tt
  | x :: rest => body x ;;; for_each rest body
  end.

(** A call that raises or returns, lifted into the monad. *)
Definition lift {A} (r : exn + A) : M A :=
  match r with
  | inl e => raise e
  | inr a => ret a
  end.

Definition print (line : string) : M unit :=
  fun st => (Ok tt, {| dist := dist st; stdout := stdout st ++ [line] |}).

(** ** The file-system calls, on trees *)

(** The entry called [nm] of a directory listing. *)
Fixpoint lookup_entry (nm : string) (entries : list (string * node)) : option node :=
  match entries with
  | [] => None
  | (n, c) :: rest => if String.eqb n nm then Some c else lookup_entry nm rest
  end.

(** The listing with the entry [nm] set to [c]: replaced in place when
    present, added at the end otherwise. *)
Fixpoint set_entry (nm : string) (c : node) (entries : list (string * node))
  : list (string * node) :=
  match entries with
  | [] => [(nm, c)]
  | (n, old) :: rest =>
      if String.eqb n nm then (n, c) :: rest
      else (n, old) :: set_entry nm c rest
  end.

(** In the three functions below [here] is what is found where the
    path starts ([None]: nothing) and the result is what is found there
    afterwards. *)

(** [path.mkdir(parents=True, exist_ok=True)]. *)
Fixpoint mkdir_parents (rel : rel_path) (here : option node) : exn + node :=
  match here with
  | Some (File _) =>
      inl (Exception (match rel with [] => "FileExistsError" | _ => "NotADirectoryError" end)
                     "mkdir")
  | Some (Dir entries) =>
      match rel with
      | [] => inr (Dir entries)
      | d :: rest =>
          match mkdir_parents rest (lookup_entry d entries) with
          | inl e => inl e
          | inr c => inr (Dir (set_entry d c entries))
          end
      end
  | None =>
      match rel with
      | [] => inr (Dir [])
      | d :: rest =>
          match mkdir_parents rest None with
          | inl e => inl e
          | inr c => inr (Dir [(d, c)])
          end
      end
  end.

(** [path.write_text(text, encoding="utf-8")]: the parent must be a
    directory and the path must not be one. *)
Fixpoint write_text (rel : rel_path) (text : string) (here : option node) : exn + node :=
  match rel with
  | [] =>
      match here with
      | Some (Dir _) => inl (Exception "IsADirectoryError" "write_text")
      | _ => inr (File text)
      end
  | d :: rest =>
      match here with
      | Some (Dir entries) =>
          match write_text rest text (lookup_entry d entries) with
          | inl e => inl e
          | inr c => inr (Dir (set_entry d c entries))
          end
      | Some (File _) => inl (Exception "NotADirectoryError" "write_text")
      | None => inl (Exception "FileNotFoundError" "write_text")
      end
  end.

(** [shutil.copytree(src, dst)] for a source tree [src]: the missing
    directories down to [dst] are made, [dst] itself must not exist,
    and the source tree is found at [dst] afterwards. *)
Fixpoint place_tree (rel : rel_path) (src : node) (here : option node) : exn + node :=
  match rel with
  | [] =>
      match here with
      | None => inr src
      | Some _ => inl (Exception "FileExistsError" "copytree")
      end
  | d :: rest =>
      match here with
      | Some (Dir entries) =>
          match place_tree rest src (lookup_entry d entries) with
          | inl e => inl e
          | inr c => inr (Dir (set_entry d c entries))
          end
      | Some (File _) => inl (Exception "NotADirectoryError" "copytree")
      | None =>
          match place_tree rest src None with
          | inl e => inl e
          | inr c => inr (Dir [(d, c)])
          end
      end
  end.

Definition copytree (src : option node) (dst : rel_path) (here : option node)
  : exn + node :=
  match src with
  | Some (Dir entries) => place_tree dst (Dir entries) here
  | Some (File _) => inl (Exception "NotADirectoryError" "copytree")
  | None => inl (Exception "FileNotFoundError" "copytree")
  end.

(** [shutil.rmtree(path)] on what is found at [path]. *)
Definition rmtree (here : option node) : exn + unit :=
  match here with
  | Some (Dir _) => inr tt
  | Some (File _) => inl (Exception "NotADirectoryError" "rmtree")
  | None => inl (Exception "FileNotFoundError" "rmtree")
  end.

(** The components of a relative path written with slashes
    ([DIST_DIR / "a/b"]). *)
Fixpoint split_slash (s : string) : rel_path :=
  match s with
  | EmptyString => [""]
  | String c rest =>
      if Ascii.eqb c "/" then "" :: split_slash rest
      else match split_slash rest with
           | [] => [String c EmptyString]
           | part :: parts => String c part :: parts
           end
  end.

(** Runs a file-system call on [DIST_DIR] and stores what it leaves. *)
Definition on_dist (f : option node -> exn + node) : M unit :=
  fun st =>
    match f (dist st) with
    | inl e => (Raise e, st)
    | inr n => (Ok tt, {| dist := Some n; stdout := stdout st |})
    end.

(** ** The script *)

Definition clean_dist : M unit :=
  fun st =>
    let removed :=
      if exists_ (dist st) then
        match rmtree (dist st) with
        | inl e => (Raise e, st)
        | inr _ => (Ok tt, {| dist := None; stdout := stdout st |})
        end
      else (Ok tt, st) in
    match removed with
    | (Ok _, st') => on_dist (mkdir_parents []) st'
    | failed => failed
    end.

Definition copy_assets (w : World) : M unit :=
  if exists_ (assets w) then on_dist (copytree (assets w) ["assets"])
  else ret tt.

(** The template to URL mapping of [render_templates]. *)
Definition templates : list (string * string) :=
  [ ("index.html", "index.html");
    ("root-canal.html", "root-canal-treatment/index.html");
    ("root-canal-retreatment.html", "root-canal-retreatment/index.html");
    ("endodontic-microsurgery.html", "endodontic-microsurgery/index.html");
    ("dental-trauma.html", "dental-trauma/index.html");
    ("internal-bleaching.html", "internal-bleaching/index.html");
    ("contact-form.html", "contacto/index.html") ].

(** The body of the rendering loop for one (template, output) pair,
    with [context] the site context. *)
Definition render_one (w : World) (context : gmap string value)
    (pair : string * string) : M unit :=
  let* tpl := lift (get_template w (fst pair)) in
  let* html := lift (tpl context) in
  let out_path := split_slash (snd pair) in
  on_dist (mkdir_parents (removelast out_path)) ;;;
  on_dist (write_text out_path html).

(** The rendering loop over a mapping, and [render_templates] itself. *)
Definition render_all (w : World) (context : gmap string value)
    (mapping : list (string * string)) : M unit :=
  for_each mapping (render_one w context).

Definition render_templates (w : World) : M unit :=
  let context := get_site_context in
  render_all w context templates.

Definition build (w : World) : M unit :=
  clean_dist ;;;
  copy_assets w ;;;
  render_templates w ;;;
  print ("Build complete: " +:+ dist_dir w).

(** ** Notions used to state what a build did *)

(** The regular files below [DIST_DIR], each with its bytes. *)
Definition output_files (st : State) : list (rel_path * string) :=
  regular_files (rglob (dist st)).

(** The regular files of a tree, by their paths from its root (a tree
    that is a single file has the empty path). *)
Fixpoint tree_files (n : node) : list (rel_path * string) :=
  match n with
  | File bytes => [([], bytes)]
  | Dir entries =>
      flat_map
        (fun e => map (fun f => (fst e :: fst f, snd f)) (tree_files (snd e)))
        entries
  end.

Definition files_at (here : option node) : list (rel_path * string) :=
  match here with
  | Some n => tree_files n
  | None => []
  end.

(** [build] with the site context as a parameter. *)
Definition build_with (w : World) (context : gmap string value) : M unit :=
  clean_dist ;;;
  copy_assets w ;;;
  render_all w context templates ;;;
  print ("Build complete: " +:+ dist_dir w).

(** The steps of [build] after [clean_dist]. *)
Definition fill_dist (w : World) (context : gmap string value) : M unit :=
  copy_assets w ;;;
  render_all w context templates ;;;
  print ("Build complete: " +:+ dist_dir w).

(** One run of the build script, as a process of its own, with
    [previous] found at [DIST_DIR]. *)
Definition run_with (w : World) (context : gmap string value)
    (previous : option node) : result unit * State :=
  build_with w context {| dist := previous; stdout := [] |}.

Definition run (w : World) (previous : option node) : result unit * State :=
  build w {| dist := previous; stdout := [] |}.

(** Where a file of the output root can come from: the assets tree
    (copied below [assets/]), or the rendering of a template of the
    mapping, written at its output path. *)
Definition from_assets (w : World) (rel : rel_path) (bytes : string) : Prop :=
  exists p, rel = "assets" :: p /\ In (p, File bytes) (rglob (assets w)).

Definition from_template (w : World) (context : gmap string value)
    (mapping : list (string * string)) (rel : rel_path) (bytes : string) : Prop :=
  exists name out tpl,
    In (name, out) mapping /\ rel = split_slash out /\
    get_template w name = inr tpl /\ tpl context = inr bytes.

(** The output root is a directory and holds nothing but such files. *)
Definition only_produced (w : World) (context : gmap string value)
    (mapping : list (string * string)) (st : State) : Prop :=
  (exists entries, dist st = Some (Dir entries)) /\
  forall rel bytes,
    In (rel, bytes) (files_at (dist st)) ->
    from_assets w rel bytes \/ from_template w context mapping rel bytes.

(** Whether a regular file (not a directory) is found. *)
Definition is_file (here : option node) : bool :=
  match here with
  | Some (File _) => true
  | _ => false
  end.

End Build.

(* ===================================================================== *)
(** * serve.py *)
(* ===================================================================== *)

Module Serve.

(** Exceptions the start-up path can meet.  [OSError] stands for the
    class and its subclasses, [OtherException] for any class that is
    neither of the two named ones. *)
Inductive exn :=
| KeyboardInterrupt
| OSError (text : string)
| OtherException (cls text : string).

(** What the script does to the outside, in order. *)
Inductive action :=
| Bind (host : string) (port : Z)
| OpenBrowser (url : string)
| ServeForever.

(** The host the script runs on:
    - [dist_exists], [dist_dir]: whether the [dist] directory next to
      the script exists, and its path as a string;
    - [bind_fault]: the exception [HTTPServer((host, port), ...)] raises
      for a port, if any;
    - [browser_fault]: the exception [webbrowser.open] raises, if any;
    - [loop_end]: how [serve_forever] ends: it returns only by raising
      ([None]: it keeps serving). *)
Record World := {
  dist_exists : bool;
  dist_dir : string;
  bind_fault : Z -> option exn;
  browser_fault : option exn;
  loop_end : option exn
}.

Record State := {
  stdout : list string;
  actions : list action
}.

Definition initial : State := {| stdout := []; actions := [] |}.

(** How a run of [serve_site] ends. *)
Inductive outcome :=
| Returns
| Raises (e : exn)
| Serving.

Definition print (line : string) (st : State) : State :=
  {| stdout := stdout st ++ [line]; actions := actions st |}.

Definition act (a : action) (st : State) : State :=
  {| stdout := stdout st; actions := actions st ++ [a] |}.

(** ["-" * 50]. *)
Fixpoint repeat_string (s : string) (n : nat) : string :=
  match n with
  | 0 => EmptyString
  | S k => s +:+ repeat_string s k
  end.

(** Lines 36-45, the body of the [try]: how it ends, and the state it
    leaves. *)
Definition try_body (w : World) (port : Z) (st : State) : outcome * State :=
  let st1 := act (Bind "localhost" port) st in
  match bind_fault w port with
  | Some e => (Raises e, st1)
  | None =>
      let st2 := act (OpenBrowser ("http://localhost:" +:+ Py.str_int port)) st1 in
      let st2 :=
        match browser_fault w with
        | Some _ => st2   (* [except: pass] *)
        | None => st2
        end in
      let st3 := act ServeForever st2 in
      match loop_end w with
      | Some e => (Raises e, st3)
      | None => (Serving, st3)
      end
  end.

Definition serve_site (w : World) (port : Z) (st : State) : outcome * State :=
  if negb (dist_exists w) then
    (Returns,
     print "❌ Error: dist directory not found. Run 'uv run build-site' first." st)
  else
    let st := print "🚀 Starting server..." st in
    let st := print ("📁 Serving: " +:+ dist_dir w) st in
    let st := print ("🌐 URL: http://localhost:" +:+ Py.str_int port) st in
    let st := print "📱 The site will open automatically in your browser" st in
    let st := print "⏹️  Press Ctrl+C to stop the server" st in
    let st := print (repeat_string "-" 50) st in
    match try_body w port st with
    | (Raises KeyboardInterrupt, st') =>
        (Returns, print (String "010" "✅ Server stopped by user") st')
    | (Raises (OSError text), st') =>
        if Py.contains "Address already in use" text then
          let st' := print ("❌ Port " +:+ Py.str_int port
                            +:+ " is already in use. Try a different port:") st' in
          (Returns, print ("   python serve.py " +:+ Py.str_int (port + 1)) st')
        else
          (Returns, print ("❌ Server error: " +:+ text) st')
    | other => other
    end.

(** How the process ends: an exit status, or it keeps serving. *)
Inductive process_end :=
| Exit (status : Z)
| Running.

(** The [__main__] block.  [parse_int] is [int(...)] on the argument:
    [None] when it raises [ValueError].  An exception that leaves
    [serve_site] ends the process with status 1. *)
Definition script (parse_int : string -> option Z) (w : World) (argv : list string)
  : process_end * State :=
  let run port :=
    match serve_site w port initial with
    | (Returns, st) => (Exit 0, st)
    | (Raises _, st) => (Exit 1, st)
    | (Serving, st) => (Running, st)
    end in
  match argv with
  | _ :: arg :: _ =>
      match parse_int arg with
      | Some port => run port
      | None => (Exit 1, print "❌ Invalid port number" initial)
      end
  | _ => run 8000%Z
  end.

End Serve.

(* ===================================================================== *)
(** * Sample inputs *)
(* ===================================================================== *)

(** Concrete trees, environments and services, used to run the scripts
    on definite inputs. *)
Module Samples.
Import Pathlib.

(** A small built site. *)
Definition site : node :=
  Dir [ ("a", Dir [("b.html", File "<html>b</html>")]);
        ("styles.css", File "body{}");
        ("app.js", File "let x;");
        ("data.json", File "{}");
        ("PAGE.HTML", File "<HTML></HTML>") ].

(** The output root of the specification's example: only [a/b.html]. *)
Definition one_page : node :=
  Dir [ ("a", Dir [("b.html", File "<html>b</html>")]) ].

Definition env_full : gmap string string :=
  list_to_map [ ("AWS_S3_BUCKET", "my-bucket");
                ("AWS_S3_PREFIX", "site/");
                ("CLOUDFRONT_DIST_ID", "E2EXAMPLE") ].

Definition env_no_cdn : gmap string string :=
  list_to_map [ ("AWS_S3_BUCKET", "my-bucket") ].

Definition env_no_bucket : gmap string string :=
  list_to_map [ ("AWS_S3_PREFIX", "site/");
                ("CLOUDFRONT_DIST_ID", "E2EXAMPLE") ].

Definition counting_entropy (n : nat) : Byte.byte :=
  default Byte.x00 (Byte.of_nat n).

(** A world for [deploy.py] on a POSIX host. *)
Definition deploy_world (env : gmap string string) (tree : option node)
    (s3 : Deploy.UploadRequest -> option Deploy.exn)
    (cf : Deploy.InvalidationRequest -> Deploy.exn + string) : Deploy.World :=
  {| Deploy.environ := env;
     Deploy.dist_dir := "/srv/endodoncia/dist";
     Deploy.sep := "/";
     Deploy.dist := tree;
     Deploy.s3_fault := s3;
     Deploy.cf_answer := cf;
     Deploy.entropy := counting_entropy |}.

Definition s3_ok (r : Deploy.UploadRequest) : option Deploy.exn := None.

(** The store refuses the key [site/styles.css] with the given
    exception. *)
Definition s3_refuses_css (e : Deploy.exn) (r : Deploy.UploadRequest)
  : option Deploy.exn :=
  if String.eqb (Deploy.Key r) "site/styles.css" then Some e else None.

Definition cf_ok (r : Deploy.InvalidationRequest) : Deploy.exn + string :=
  inr "I3EXAMPLE".

Definition cf_refuses (e : Deploy.exn) (r : Deploy.InvalidationRequest)
  : Deploy.exn + string :=
  inl e.

Definition access_denied : Deploy.exn :=
  Deploy.ClientError
    "An error occurred (AccessDenied) when calling the PutObject operation: Access Denied".

Definition no_credentials : Deploy.exn :=
  Deploy.OtherException "NoCredentialsError" "Unable to locate credentials".

(** Everything works. *)
Definition calm : Deploy.World := deploy_world env_full (Some site) s3_ok cf_ok.

(** Everything works, and no distribution id is configured. *)
Definition calm_no_cdn : Deploy.World := deploy_world env_no_cdn (Some site) s3_ok cf_ok.

(** The specification's key example. *)
Definition calm_one_page : Deploy.World :=
  deploy_world env_full (Some one_page) s3_ok cf_ok.

(** No bucket configured; no [dist/] on disk. *)
Definition unconfigured : Deploy.World :=
  deploy_world env_no_bucket (Some site) s3_ok cf_ok.
Definition unbuilt : Deploy.World := deploy_world env_full None s3_ok cf_ok.

(** One upload is refused: with a client error, or with an exception
    of another class. *)
Definition css_denied : Deploy.World :=
  deploy_world env_full (Some site) (s3_refuses_css access_denied) cf_ok.
Definition css_no_credentials : Deploy.World :=
  deploy_world env_full (Some site) (s3_refuses_css no_credentials) cf_ok.

(** The invalidation is refused: with a client error, or with an
    exception of another class. *)
Definition cdn_denied : Deploy.World :=
  deploy_world env_full (Some site) s3_ok
    (cf_refuses (Deploy.ClientError "An error occurred (AccessDenied)")).
Definition cdn_unreachable : Deploy.World :=
  deploy_world env_full (Some site) s3_ok
    (cf_refuses (Deploy.OtherException "EndpointConnectionError"
                   "Could not connect to the endpoint URL")).

(** A world for [build.py]: one asset, and templates that render the
    page title from the context; [contact-form.html] is missing when
    [complete] is false. *)
Definition title_page (name : string) : Build.template :=
  fun context =>
    match context !! "site_title" with
    | Some (Build.Str title) =>
        inr ("<title>" +:+ title +:+ "</title><!-- " +:+ name +:+ " -->")
    | _ => inl (Build.Exception "UndefinedError" "'site_title' is undefined")
    end.

Definition build_world (complete : bool) : Build.World :=
  {| Build.assets := Some (Dir [("css", Dir [("site.css", File "body{}")])]);
     Build.get_template :=
       fun name =>
         if negb complete && String.eqb name "contact-form.html"
         then inl (Build.Exception "TemplateNotFound" name)
         else inr (title_page name);
     Build.dist_dir := "/srv/endodoncia/dist" |}.

(** An output root left by an older build, with a page that no longer
    exists. *)
Definition stale_dist : node :=
  Dir [ ("index.html", File "<title>old</title>");
        ("old-page", Dir [("index.html", File "<title>gone</title>")]) ].

(** Worlds for [serve.py]: whether [dist/] was built, and what binding
    the port raises. *)
Definition serve_world (built : bool) (fault : option Serve.exn) : Serve.World :=
  {| Serve.dist_exists := built;
     Serve.dist_dir := "/srv/endodoncia/dist";
     Serve.bind_fault := fun _ => fault;
     Serve.browser_fault := None;
     Serve.loop_end := Some Serve.KeyboardInterrupt |}.

Definition address_in_use : Serve.exn :=
  Serve.OSError "[Errno 98] Address already in use".

Definition port_taken : Serve.World := serve_world true (Some address_in_use).
Definition port_taken_unbuilt : Serve.World := serve_world false (Some address_in_use).

(** [int(...)] on the arguments the samples use. *)
Definition parse_port (arg : string) : option Z :=
  if String.eqb arg "8000" then Some 8000%Z
  else if String.eqb arg "9000" then Some 9000%Z
  else None.

End Samples.

(* ===================================================================== *)
(** * Further notions, for properties beyond the specification's *)
(* ===================================================================== *)

(** What a run of [deploy.py] leaves behind, in terms of its plan. *)
Module DeployMore.
Import Pathlib Deploy.


(** The requests of a plan that the store accepted before the first
    refusal, each with the file's bytes. *)
Fixpoint completed (w : World) (plan : list (UploadRequest * string))
  : list (UploadRequest * string) :=
  match plan with
  | [] => []
  | (r, bytes) :: rest =>
      match s3_fault w r with
      | Some _ => []
      | None => (r, bytes) :: completed w rest
      end
  end.

(** The line printed after an upload (line 35). *)
Definition uploaded_line (bucket_name : string) (r : UploadRequest) : string :=
  "Uploaded s3://" +:+ bucket_name +:+ "/" +:+ Key r.

(** Where an upload is stored, and what is stored there. *)
Definition slot (x : UploadRequest * string) : string * string :=
  (Bucket (fst x), Key (fst x)).

Definition stored (x : UploadRequest * string) : S3Object :=
  {| body := snd x; content_type := ExtraArgs (fst x) !! "ContentType" |}.

(** A lowercase hexadecimal digit. *)
Definition is_lower_hex (c : ascii) : bool :=
  let n := N_of_ascii c in
  ((48 <=? n) && (n <=? 57) || (97 <=? n) && (n <=? 102))%N.

Fixpoint all_chars (p : ascii -> bool) (s : string) : bool :=
  match s with
  | EmptyString => true
  | String c rest => p c && all_chars p rest
  end.

End DeployMore.

(** What is found at a path of a tree. *)
Module BuildMore.
Import Pathlib Build.

(** The node found at [p] below [here], directory entries being looked
    up by name. *)
Fixpoint node_at (p : rel_path) (here : option node) : option node :=
  match p with
  | [] => here
  | d :: rest =>
      match here with
      | Some (Dir entries) => node_at rest (lookup_entry d entries)
      | _ => None
      end
  end.

(** The bytes of the regular file at [p], if there is one: what reading
    the file gives. *)
Definition file_at (p : rel_path) (here : option node) : option string :=
  match node_at p here with
  | Some (File bytes) => Some bytes
  | _ => None
  end.

(** The output paths of a mapping, as path components. *)
Definition outputs (mapping : list (string * string)) : list rel_path :=
  map (fun pair => split_slash (snd pair)) mapping.

(** A template of the mapping that cannot be loaded, or that cannot be
    rendered against the context. *)
Definition template_fails (w : World) (context : gmap string value) (name : string)
  : Prop :=
  (exists e, get_template w name = inl e) \/
  (exists tpl e, get_template w name = inr tpl /\ tpl context = inl e).

End BuildMore.

(** The lines and the exits of [serve.py]. *)
Module ServeMore.
Import Serve.

(** The six lines [serve_site] prints before it binds the port. *)
Definition banner (w : World) (port : Z) : list string :=
  [ "🚀 Starting server...";
    "📁 Serving: " +:+ dist_dir w;
    "🌐 URL: http://localhost:" +:+ Py.str_int port;
    "📱 The site will open automatically in your browser";
    "⏹️  Press Ctrl+C to stop the server";
    repeat_string "-" 50 ].

(** The exception that ends the [try] block of [serve_site], if any:
    from binding the port, or from the serve loop. *)
Definition try_fault (w : World) (port : Z) : option exn :=
  match bind_fault w port with
  | Some e => Some e
  | None => loop_end w
  end.

(** The port the script serves on, for its arguments: [None] when the
    argument is not a number. *)
Definition requested_port (parse_int : string -> option Z) (argv : list string)
  : option Z :=
  match argv with
  | _ :: arg :: _ => parse_int arg
  | _ => Some 8000%Z
  end.

(** A host that differs from [w] only in what opening the browser
    raises. *)
Definition with_browser_fault (w : World) (fault : option exn) : World :=
  {| dist_exists := dist_exists w;
     dist_dir := dist_dir w;
     bind_fault := bind_fault w;
     browser_fault := fault;
     loop_end := loop_end w |}.

End ServeMore.

(** Further sample inputs. *)
Module SamplesMore.
Import Pathlib.

(** An output root with directories only. *)
Definition hollow : node := Dir [ ("a", Dir [("b", Dir [])]); ("c", Dir []) ].

Definition calm_hollow : Deploy.World :=
  Samples.deploy_world Samples.env_full (Some hollow) Samples.s3_ok Samples.cf_ok.

(** Hidden files and a name that ends with a dot. *)
Definition dotted : node :=
  Dir [ (".html", File "hidden"); ("notes.html.", File "dot"); ("app.min.js", File "js") ].

Definition calm_dotted : Deploy.World :=
  Samples.deploy_world Samples.env_full (Some dotted) Samples.s3_ok Samples.cf_ok.

(** The serve loop runs until interrupted; the browser cannot be
    opened. *)
Definition serving : Serve.World := Samples.serve_world true None.

Definition serving_no_browser : Serve.World :=
  ServeMore.with_browser_fault serving
    (Some (Serve.OtherException "webbrowser.Error" "could not locate runnable browser")).

(** Binding fails for a reason other than a taken port. *)
Definition no_permission : Serve.World :=
  Samples.serve_world true (Some (Serve.OSError "[Errno 13] Permission denied")).

(** Binding fails with an exception that is no [OSError]. *)
Definition port_out_of_range : Serve.World :=
  Samples.serve_world true
    (Some (Serve.OtherException "OverflowError" "bind(): port must be 0-65535.")).

(** The output root of the sample build, published. *)
Definition built_site : option node :=
  Build.dist (snd (Build.run_with (Samples.build_world true) Build.get_site_context None)).

Definition calm_built : Deploy.World :=
  Samples.deploy_world Samples.env_full built_site Samples.s3_ok Samples.cf_ok.

(** No [dist/] and a free port. *)
Definition unbuilt_host : Serve.World := Samples.serve_world false None.

End SamplesMore.

(* ===================================================================== *)
(** * Facts about the built-ins and about paths *)
(* ===================================================================== *)

Module PyFacts.
Import Py.

Lemma unhex_hex_byte (b : Byte.byte) :
  unhex_pair (hex_digit (Byte.to_N b / 16)) (hex_digit (Byte.to_N b mod 16)) = Some b.
Proof. destruct b; vm_compute; reflexivity. Qed.

(** [bytes.hex] loses nothing: different byte strings have different
    renderings. *)
Lemma hex_injective (bs1 bs2 : list Byte.byte) :
  hex bs1 = hex bs2 -> bs1 = bs2.
Proof.
  revert bs2.
  induction bs1 as [|b1 rest1 IH]; intros [|b2 rest2]; simpl; intros H;
    try discriminate; [reflexivity|].
  injection H as Hhi Hlo Hrest.
  assert (Some b1 = Some b2) as Hb.
  { rewrite <- (unhex_hex_byte b1), <- (unhex_hex_byte b2).
    rewrite Hhi, Hlo. reflexivity. }
  injection Hb as ->. f_equal. apply IH, Hrest.
Qed.

Lemma append_injective_l (p s1 s2 : string) :
  p +:+ s1 = p +:+ s2 -> s1 = s2.
Proof.
  induction p as [|c p IH]; simpl; intros H; [exact H|].
  injection H as H. apply IH, H.
Qed.

Lemma truthy_false (s : string) : truthy s = false <-> s = "".
Proof.
  unfold truthy. rewrite negb_false_iff. apply String.eqb_eq.
Qed.

(** [rfind] on a string whose last occurrence of [c] is known. *)
Lemma rfind_app (c : ascii) (stem tail : string) :
  rfind c tail = None ->
  rfind c (stem +:+ String c tail) = Some (String.length stem).
Proof.
  intros Htail. induction stem as [|a stem IH]; simpl.
  - rewrite Htail. rewrite Ascii.eqb_refl. reflexivity.
  - rewrite IH. reflexivity.
Qed.

Lemma drop_chars_app (stem tail : string) :
  drop_chars (String.length stem) (stem +:+ tail) = tail.
Proof.
  induction stem as [|a stem IH]; simpl; [destruct tail; reflexivity | exact IH].
Qed.

Lemma length_app (s1 s2 : string) :
  String.length (s1 +:+ s2) = String.length s1 + String.length s2.
Proof. induction s1 as [|a s1 IH]; simpl; [reflexivity | rewrite IH; reflexivity]. Qed.

End PyFacts.

Module PathFacts.
Import Pathlib.

(** A name made of a non-empty stem, a dot and a non-empty dot-free
    extension has that extension (with its dot) as suffix. *)
Lemma suffix_of_stem_ext (stem ext : string) :
  stem <> "" -> ext <> "" -> Py.rfind "." ext = None ->
  suffix_of_name (stem +:+ String "." ext) = String "." ext.
Proof.
  intros Hstem Hext Hdot. unfold suffix_of_name.
  rewrite (PyFacts.rfind_app _ _ _ Hdot).
  rewrite PyFacts.length_app. simpl.
  assert (0 < String.length stem) as H0 by (destruct stem; simpl; [congruence | lia]).
  assert (0 < String.length ext) as H1 by (destruct ext; simpl; [congruence | lia]).
  destruct (Nat.ltb_spec 0 (String.length stem)) as [_|]; [|lia].
  destruct (Nat.ltb_spec (String.length stem)
              (String.length stem + S (String.length ext) - 1)) as [_|]; [|lia].
  simpl. apply PyFacts.drop_chars_app.
Qed.

Lemma name_snoc (dir : rel_path) (nm : string) : name (dir ++ [nm]) = nm.
Proof. unfold name. apply last_last. Qed.

(** Where the paths of an enumeration come from: each carries the
    prefix the enumeration started with. *)
Lemma regular_files_app (l1 l2 : list (rel_path * node)) :
  regular_files (l1 ++ l2) = regular_files l1 ++ regular_files l2.
Proof. unfold regular_files. apply flat_map_app. Qed.

Lemma in_regular_files (l : list (rel_path * node)) (rel : rel_path) (bytes : string) :
  In (rel, bytes) (regular_files l) <-> In (rel, File bytes) l.
Proof.
  unfold regular_files. rewrite in_flat_map. split.
  - intros [[r n] [Hin Hx]]. simpl in Hx. destruct n as [c|es]; simpl in Hx.
    + destruct Hx as [Hx|[]]. injection Hx as -> ->. exact Hin.
    + destruct Hx.
  - intros Hin. exists (rel, File bytes). split; [exact Hin | simpl; left; reflexivity].
Qed.

End PathFacts.

(* ===================================================================== *)
(** * deploy.py: what a run does *)
(* ===================================================================== *)

Module DeployFacts.
Import Pathlib Deploy.

(** Unfolds the monad. *)
Ltac run_monad :=
  unfold upload_path, try_except_ClientError, upload_file, create_invalidation,
    urandom, print, bind, ret, raise in *; simpl in *.

Lemma sent_by_app {A} (c : M A) (st : State) (new : list call) :
  calls (snd (c st)) = calls st ++ new -> sent_by c st = new.
Proof. intros H. unfold sent_by. rewrite H. apply drop_app_length. Qed.

Lemma uploads_app (l1 l2 : list call) : uploads (l1 ++ l2) = uploads l1 ++ uploads l2.
Proof. unfold uploads. apply flat_map_app. Qed.

Lemma invalidations_app (l1 l2 : list call) :
  invalidations (l1 ++ l2) = invalidations l1 ++ invalidations l2.
Proof. unfold invalidations. apply flat_map_app. Qed.

Lemma uploads_of_uploads (rs : list UploadRequest) : uploads (map UploadFile rs) = rs.
Proof. induction rs as [|r rs IH]; simpl; [reflexivity | rewrite IH; reflexivity]. Qed.

Lemma invalidations_of_uploads (rs : list UploadRequest) :
  invalidations (map UploadFile rs) = [].
Proof. induction rs as [|r rs IH]; simpl; [reflexivity | exact IH]. Qed.

Lemma uploads_of_invalidations (rs : list InvalidationRequest) :
  uploads (map CreateInvalidation rs) = [].
Proof. induction rs as [|r rs IH]; simpl; [reflexivity | exact IH]. Qed.

Lemma invalidations_of_invalidations (rs : list InvalidationRequest) :
  invalidations (map CreateInvalidation rs) = rs.
Proof. induction rs as [|r rs IH]; simpl; [reflexivity | rewrite IH; reflexivity]. Qed.

(** ** The plan *)

Lemma attempted_no_fault (w : World) (plan : list (UploadRequest * string)) :
  first_fault w plan = None -> attempted w plan = map fst plan.
Proof.
  induction plan as [|[r bytes] rest IH]; simpl; [reflexivity|].
  destruct (s3_fault w r); [discriminate|].
  intros H. rewrite (IH H). reflexivity.
Qed.

(** A plan whose first refused request is [r]: everything before [r]
    and [r] itself is attempted, nothing after it. *)
Lemma attempted_until_fault (w : World) (before after : list (UploadRequest * string))
    (r : UploadRequest) (bytes : string) (e : exn) :
  Forall (fun x => s3_fault w (fst x) = None) before ->
  s3_fault w r = Some e ->
  attempted w (before ++ (r, bytes) :: after) = map fst before ++ [r] /\
  first_fault w (before ++ (r, bytes) :: after) = Some (r, e).
Proof.
  intros Hbefore Hr. induction Hbefore as [|[r0 b0] before H0 _ IH]; simpl.
  - rewrite Hr. split; reflexivity.
  - simpl in H0. rewrite H0. destruct IH as [-> ->]. split; reflexivity.
Qed.

Lemma attempted_in_plan (w : World) (plan : list (UploadRequest * string))
    (r : UploadRequest) :
  In r (attempted w plan) -> In r (map fst plan).
Proof.
  induction plan as [|[r0 b0] rest IH]; simpl; [tauto|].
  intros [H|H]; [left; exact H|].
  destruct (s3_fault w r0); [destruct H | right; apply IH, H].
Qed.

(** An attempted request that the service refuses is the first fault
    of the plan. *)
Lemma attempted_fault_is_first (w : World) (plan : list (UploadRequest * string))
    (r : UploadRequest) (e : exn) :
  In r (attempted w plan) -> s3_fault w r = Some e ->
  first_fault w plan = Some (r, e).
Proof.
  induction plan as [|[r0 b0] rest IH]; simpl; [tauto|].
  intros [H|H] Hr.
  - subst r0. rewrite Hr. reflexivity.
  - destruct (s3_fault w r0) eqn:H0; [destruct H | apply IH; assumption].
Qed.

Lemma in_planned (w : World) (bucket_name prefix : string)
    (paths : list (rel_path * node)) (r : UploadRequest) :
  In r (map fst (planned w bucket_name prefix paths)) <->
  exists rel bytes, In (rel, File bytes) paths /\
                    r = upload_request w bucket_name prefix rel.
Proof.
  unfold planned. rewrite map_map. simpl. rewrite in_map_iff. split.
  - intros [[rel bytes] [<- Hin]]. exists rel, bytes.
    split; [apply PathFacts.in_regular_files, Hin | reflexivity].
  - intros (rel & bytes & Hin & ->). exists (rel, bytes).
    split; [reflexivity | apply PathFacts.in_regular_files, Hin].
Qed.

(** ** The upload loop *)

Section Loop.
Variable w : World.
Variables bucket_name prefix : string.

Lemma upload_paths_cons_dir (rel : rel_path) (entries : list (string * node))
    (rest : list (rel_path * node)) (st : State) :
  upload_paths w bucket_name prefix ((rel, Dir entries) :: rest) st =
  upload_paths w bucket_name prefix rest st.
Proof. reflexivity. Qed.

(** One pass of the loop on a regular file. *)
Lemma upload_paths_cons_file (rel : rel_path) (bytes : string)
    (rest : list (rel_path * node)) (st : State) :
  let r := upload_request w bucket_name prefix rel in
  let sent := calls st ++ [UploadFile r] in
  upload_paths w bucket_name prefix ((rel, File bytes) :: rest) st =
  match s3_fault w r with
  | Some e =>
      (Raise (upload_failure r e),
       {| stdout := stdout st; calls := sent; store := store st; drawn := drawn st |})
  | None =>
      upload_paths w bucket_name prefix rest
        {| stdout := stdout st ++ ["Uploaded s3://" +:+ bucket_name +:+ "/" +:+ Key r];
           calls := sent;
           store := <[(Bucket r, Key r) :=
                       {| body := bytes;
                          content_type := ExtraArgs r !! "ContentType" |}]> (store st);
           drawn := drawn st |}
  end.
Proof.
  intros r sent. unfold upload_paths. simpl. run_monad.
  fold r. destruct (s3_fault w r) as [e|]; [|reflexivity].
  destruct e; reflexivity.
Qed.

(** The whole loop: which requests go out, how it ends, and that it
    draws no entropy. *)
Lemma upload_paths_run (paths : list (rel_path * node)) (st : State) :
  let plan := planned w bucket_name prefix paths in
  let out := upload_paths w bucket_name prefix paths st in
  calls (snd out) = calls st ++ map UploadFile (attempted w plan) /\
  drawn (snd out) = drawn st /\
  fst out = match first_fault w plan with
            | Some (r, e) => Raise (upload_failure r e)
            | None => Ok tt
            end.
Proof.
  revert st. induction paths as [|[rel n] rest IH]; intros st.
  - simpl. rewrite app_nil_r. repeat split.
  - destruct n as [bytes|entries].
    + cbv zeta. rewrite upload_paths_cons_file.
      change (planned w bucket_name prefix ((rel, File bytes) :: rest))
        with ((upload_request w bucket_name prefix rel, bytes)
                :: planned w bucket_name prefix rest).
      cbn [attempted first_fault].
      destruct (s3_fault w (upload_request w bucket_name prefix rel)) as [e|].
      * cbn [fst snd calls drawn]. repeat split.
      * match goal with
        | |- context [upload_paths _ _ _ rest ?s] => specialize (IH s)
        end.
        cbv zeta in IH. destruct IH as (Hc & Hd & Hr).
        rewrite Hc, Hd, Hr. cbn [calls drawn map].
        rewrite <- app_assoc. repeat split.
    + cbv zeta. rewrite upload_paths_cons_dir. apply IH.
Qed.

End Loop.

(** ** The invalidation step *)

Lemma invalidate_cloudfront_run (w : World) (distribution_id : option string)
    (st : State) :
  let reqs := invalidation_for w distribution_id st in
  let out := invalidate_cloudfront w distribution_id st in
  calls (snd out) = calls st ++ map CreateInvalidation reqs /\
  store (snd out) = store st /\
  drawn (snd out) = drawn st + 8 * length reqs /\
  fst out = invalidation_result w reqs.
Proof.
  unfold invalidate_cloudfront, invalidation_for, invalidation_result.
  destruct distribution_id as [id|]; cbv zeta.
  - destruct (Py.truthy id).
    + run_monad.
      destruct (cf_answer w _) as [e|resp_id]; simpl.
      * destruct e; simpl; repeat split.
      * repeat split.
    + simpl. rewrite app_nil_r, Nat.add_0_r. repeat split.
  - simpl. rewrite app_nil_r, Nat.add_0_r. repeat split.
Qed.

(** ** The entry point *)

Lemma main_not_configured (w : World) (st : State) :
  configured w = false ->
  main w st =
    (Raise (SystemExit
              (if Py.truthy_opt (environ w !! "AWS_S3_BUCKET")
               then "dist/ not found. Run `uv run build-site` first."
               else "AWS_S3_BUCKET environment variable is required")), st).
Proof.
  unfold configured, main.
  destruct (Py.truthy_opt (environ w !! "AWS_S3_BUCKET")); simpl.
  - intros ->. reflexivity.
  - reflexivity.
Qed.

Lemma main_configured (w : World) (st : State) :
  configured w = true ->
  main w st =
    (upload_directory_to_s3 w (bucket_of w) (prefix_of w) ;;;
     invalidate_cloudfront w (distribution_of w)) st.
Proof.
  unfold configured, main. intros H. apply andb_true_iff in H as [-> ->].
  reflexivity.
Qed.

(** A configured run: the requests it sends, the store it leaves and
    how it ends. *)
Lemma main_run (w : World) (st : State) :
  configured w = true ->
  calls (snd (main w st)) =
    calls st ++ map UploadFile (attempted w (plan_of w)) ++
    match first_fault w (plan_of w) with
    | Some _ => []
    | None => map CreateInvalidation (invalidation_of w st)
    end /\
  store (snd (main w st)) =
    store (snd (upload_directory_to_s3 w (bucket_of w) (prefix_of w) st)) /\
  drawn (snd (main w st)) =
    drawn st + match first_fault w (plan_of w) with
               | Some _ => 0
               | None => 8 * length (invalidation_of w st)
               end /\
  fst (main w st) =
    match first_fault w (plan_of w) with
    | Some (r, e) => Raise (upload_failure r e)
    | None => invalidation_result w (invalidation_of w st)
    end.
Proof.
  intros Hcfg. rewrite (main_configured _ _ Hcfg).
  unfold bind, upload_directory_to_s3.
  destruct (upload_paths_run w (bucket_of w) (prefix_of w) (rglob (dist w)) st)
    as (Hc & Hd & Hr).
  fold (plan_of w) in Hc, Hr.
  destruct (upload_paths w (bucket_of w) (prefix_of w) (rglob (dist w)) st)
    as [res st1].
  simpl in Hc, Hd, Hr.
  destruct (first_fault w (plan_of w)) as [[r e]|].
  - subst res. simpl. rewrite app_nil_r, Nat.add_0_r. repeat split; assumption.
  - subst res.
    destruct (invalidate_cloudfront_run w (distribution_of w) st1)
      as (Hc' & Hs' & Hd' & Hr').
    unfold invalidation_of.
    assert (invalidation_for w (distribution_of w) st1
            = invalidation_for w (distribution_of w) st) as Hsame.
    { unfold invalidation_for. rewrite Hd. reflexivity. }
    rewrite Hsame in Hc', Hd', Hr'.
    rewrite Hc', Hs', Hd', Hr', Hc, Hd, <- app_assoc. repeat split.
Qed.

Lemma main_sent (w : World) (st : State) :
  configured w = true ->
  sent_by (main w) st =
    map UploadFile (attempted w (plan_of w)) ++
    match first_fault w (plan_of w) with
    | Some _ => []
    | None => map CreateInvalidation (invalidation_of w st)
    end.
Proof.
  intros Hcfg. apply sent_by_app. apply (main_run w st Hcfg).
Qed.

Lemma main_sent_not_configured (w : World) (st : State) :
  configured w = false -> sent_by (main w) st = [].
Proof.
  intros Hcfg. apply sent_by_app.
  rewrite (main_not_configured _ _ Hcfg). simpl. rewrite app_nil_r. reflexivity.
Qed.

(** The uploads and the invalidations of any run, configured or not. *)
Lemma main_uploads (w : World) (st : State) :
  uploads (sent_by (main w) st) =
    if configured w then attempted w (plan_of w) else [].
Proof.
  destruct (configured w) eqn:Hcfg.
  - rewrite (main_sent _ _ Hcfg), uploads_app, uploads_of_uploads.
    destruct (first_fault w (plan_of w)); simpl.
    + apply app_nil_r.
    + rewrite uploads_of_invalidations. apply app_nil_r.
  - rewrite (main_sent_not_configured _ _ Hcfg). reflexivity.
Qed.

Lemma main_invalidations (w : World) (st : State) :
  invalidations (sent_by (main w) st) =
    if configured w then
      match first_fault w (plan_of w) with
      | Some _ => []
      | None => invalidation_of w st
      end
    else [].
Proof.
  destruct (configured w) eqn:Hcfg.
  - rewrite (main_sent _ _ Hcfg), invalidations_app, invalidations_of_uploads.
    destruct (first_fault w (plan_of w)); simpl; [reflexivity|].
    apply invalidations_of_invalidations.
  - rewrite (main_sent_not_configured _ _ Hcfg). reflexivity.
Qed.

(** Every upload of a run is the request built for a regular file
    found below [dist/]. *)
Lemma main_upload_origin (w : World) (st : State) (r : UploadRequest) :
  In r (uploads (sent_by (main w) st)) ->
  exists rel bytes,
    In (rel, File bytes) (rglob (dist w)) /\
    r = upload_request w (bucket_of w) (prefix_of w) rel.
Proof.
  rewrite main_uploads. destruct (configured w); [|intros []].
  intros Hin. apply attempted_in_plan in Hin. apply in_planned in Hin. exact Hin.
Qed.

(** A run that ends normally was configured and met no refusal. *)
Lemma main_ok (w : World) (st : State) :
  fst (main w st) = Ok tt ->
  configured w = true /\ first_fault w (plan_of w) = None.
Proof.
  intros Hok. destruct (configured w) eqn:Hcfg.
  - split; [reflexivity|].
    destruct (main_run w st Hcfg) as (_ & _ & _ & Hr). rewrite Hr in Hok.
    destruct (first_fault w (plan_of w)) as [[r e]|]; [discriminate | reflexivity].
  - rewrite (main_not_configured _ _ Hcfg) in Hok. discriminate.
Qed.

(** ** Keys and content types *)

Lemma object_key_concat (prefix : string) (rel : rel_path) :
  object_key prefix rel = prefix +:+ String.concat "/" rel.
Proof.
  unfold object_key, as_posix. destruct (Py.truthy prefix) eqn:H; [reflexivity|].
  apply PyFacts.truthy_false in H. subst prefix. reflexivity.
Qed.

Lemma prefix_concat (sep d : string) (rest : list string) :
  String.prefix d (String.concat sep (d :: rest)) = true.
Proof.
  assert (forall tail, String.prefix d (d +:+ tail) = true) as Happ.
  { intros tail. induction d as [|c d IH]; simpl.
    - destruct tail; reflexivity.
    - destruct (Ascii.ascii_dec c c) as [_|Hne]; [exact IH | destruct Hne; reflexivity]. }
  destruct rest as [|x rest]; simpl.
  - specialize (Happ "").
    assert (d +:+ "" = d) as Hnil.
    { clear Happ. induction d as [|c d IH]; [reflexivity|].
      change (String c (d +:+ "") = String c d). rewrite IH. reflexivity. }
    rewrite Hnil in Happ. exact Happ.
  - apply Happ.
Qed.

(** The [ExtraArgs] of a path, by cases on its suffix. *)
Lemma extra_args_table (rel : rel_path) :
  (suffix rel = ".html" ->
     extra_args rel = {[ "ContentType" := "text/html; charset=utf-8" ]}) /\
  (suffix rel = ".css" ->
     extra_args rel = {[ "ContentType" := "text/css; charset=utf-8" ]}) /\
  (suffix rel = ".js" ->
     extra_args rel = {[ "ContentType" := "application/javascript; charset=utf-8" ]}) /\
  (suffix rel <> ".html" -> suffix rel <> ".css" -> suffix rel <> ".js" ->
     extra_args rel = ∅).
Proof.
  unfold extra_args. repeat split.
  - intros ->. reflexivity.
  - intros ->. reflexivity.
  - intros ->. reflexivity.
  - intros H1 H2 H3.
    apply String.eqb_neq in H1, H2, H3. rewrite H1, H2, H3. reflexivity.
Qed.

(** ** The store *)

(** A loop that meets no refusal leaves an object under the key of
    every request of its plan, and drops none that was there. *)
Lemma upload_paths_store (w : World) (bucket_name prefix : string)
    (paths : list (rel_path * node)) (st : State) (k : string * string) :
  first_fault w (planned w bucket_name prefix paths) = None ->
  is_Some (store st !! k) \/
    In k (map (fun r => (Bucket r, Key r))
            (map fst (planned w bucket_name prefix paths))) ->
  is_Some (store (snd (upload_paths w bucket_name prefix paths st)) !! k).
Proof.
  revert st. induction paths as [|[rel n] rest IH]; intros st Hnone Hk.
  - simpl in *. destruct Hk as [Hk|[]]. exact Hk.
  - destruct n as [bytes|entries].
    + rewrite upload_paths_cons_file.
      change (planned w bucket_name prefix ((rel, File bytes) :: rest))
        with ((upload_request w bucket_name prefix rel, bytes)
                :: planned w bucket_name prefix rest) in Hnone, Hk.
      cbn [first_fault] in Hnone.
      destruct (s3_fault w (upload_request w bucket_name prefix rel)); [discriminate|].
      apply IH; [exact Hnone|].
      cbn [store map fst In] in *.
      destruct Hk as [Hk|[Hk|Hk]].
      * left. rewrite lookup_insert_is_Some. destruct (decide
          ((Bucket (upload_request w bucket_name prefix rel),
            Key (upload_request w bucket_name prefix rel)) = k)); [left | right]; auto.
      * left. rewrite <- Hk. rewrite lookup_insert_eq. eauto.
      * right. exact Hk.
    + rewrite upload_paths_cons_dir. apply IH; assumption.
Qed.

End DeployFacts.

(* ===================================================================== *)
(** * deploy.py: the properties of the specification *)
(* ===================================================================== *)

Module DeployClaims.
Import Pathlib Deploy DeployFacts.

(** C1.  The bucket key of a file is the prefix followed, verbatim, by
    the file's path relative to the output root written with forward
    slashes; with an empty prefix the key is that relative path itself
    and starts with its first component (no slash is put in front).
    Every upload a publish run makes is the upload of a regular file
    found below the output root under exactly this key, and a run that
    ends normally has uploaded every regular file below the output
    root.  For [dist/a/b.html] and prefix ["site/"] the key is
    [site/a/b.html]. *)
Theorem publish_key (w : World) (st : State) :
  (forall prefix rel, object_key prefix rel = prefix +:+ String.concat "/" rel) /\
  (forall rel, object_key "" rel = String.concat "/" rel) /\
  (forall d rest, String.prefix d (object_key "" (d :: rest)) = true) /\
  object_key "site/" ["a"; "b.html"] = "site/a/b.html" /\
  (forall r, In r (uploads (sent_by (main w) st)) ->
     exists rel bytes,
       In (rel, File bytes) (rglob (dist w)) /\
       Filename r = str_under (sep w) (dist_dir w) rel /\
       Key r = prefix_of w +:+ String.concat "/" rel) /\
  (fst (main w st) = Ok tt ->
   forall rel bytes, In (rel, File bytes) (rglob (dist w)) ->
     exists r,
       In r (uploads (sent_by (main w) st)) /\
       Filename r = str_under (sep w) (dist_dir w) rel /\
       Key r = prefix_of w +:+ String.concat "/" rel).
Proof.
  split; [apply object_key_concat|].
  split; [intros rel; apply (object_key_concat "" rel)|].
  split; [intros d rest; rewrite object_key_concat; apply prefix_concat|].
  split; [reflexivity|].
  split.
  - intros r Hin. apply main_upload_origin in Hin as (rel & bytes & Hfile & ->).
    exists rel, bytes. split; [exact Hfile|]. split; [reflexivity|].
    apply object_key_concat.
  - intros Hok rel bytes Hfile.
    destruct (main_ok _ _ Hok) as [Hcfg Hnone].
    exists (upload_request w (bucket_of w) (prefix_of w) rel).
    split; [|split; [reflexivity | apply object_key_concat]].
    rewrite main_uploads, Hcfg, (attempted_no_fault _ _ Hnone).
    apply in_planned. exists rel, bytes. split; [exact Hfile | reflexivity].
Qed.

(** The run of the specification's example: one file, one upload, under
    the key [site/a/b.html]. *)
Lemma publish_key_witness :
  map Key (uploads (sent_by (main Samples.calm_one_page) initial)) = ["site/a/b.html"] /\
  (exists rel bytes,
     In (rel, File bytes) (rglob (dist Samples.calm_one_page)) /\
     Filename (upload_request Samples.calm_one_page "my-bucket" "site/" ["a"; "b.html"])
       = str_under "/" "/srv/endodoncia/dist" rel /\
     Key (upload_request Samples.calm_one_page "my-bucket" "site/" ["a"; "b.html"])
       = "site/" +:+ String.concat "/" rel) /\
  (exists r,
     In r (uploads (sent_by (main Samples.calm_one_page) initial)) /\
     Filename r = "/srv/endodoncia/dist/a/b.html" /\
     Key r = "site/a/b.html").
Proof.
  destruct (publish_key Samples.calm_one_page initial) as (_ & _ & _ & _ & Hup & Hall).
  split; [vm_compute; reflexivity|]. split.
  - apply (Hup (upload_request Samples.calm_one_page "my-bucket" "site/" ["a"; "b.html"])).
    vm_compute. left. reflexivity.
  - apply (Hall eq_refl ["a"; "b.html"] "<html>b</html>").
    vm_compute. right. left. reflexivity.
Defined.

(** C2.  The content type of an upload depends on the file's extension
    alone: [.html], [.css] and [.js] get their fixed types, every other
    extension gets no [ContentType] at all.  This holds of every upload
    a publish run makes; a name [stem.html], [stem.css] or [stem.js]
    with a non-empty stem has that extension; and [styles.css],
    [app.js] and [data.json] get what the specification lists. *)
Theorem content_type_by_extension (w : World) (st : State) :
  (forall r, In r (uploads (sent_by (main w) st)) ->
     exists rel bytes,
       In (rel, File bytes) (rglob (dist w)) /\
       Filename r = str_under (sep w) (dist_dir w) rel /\
       (suffix rel = ".html" ->
          ExtraArgs r = {[ "ContentType" := "text/html; charset=utf-8" ]}) /\
       (suffix rel = ".css" ->
          ExtraArgs r = {[ "ContentType" := "text/css; charset=utf-8" ]}) /\
       (suffix rel = ".js" ->
          ExtraArgs r = {[ "ContentType" := "application/javascript; charset=utf-8" ]}) /\
       (suffix rel <> ".html" -> suffix rel <> ".css" -> suffix rel <> ".js" ->
          ExtraArgs r = ∅)) /\
  (forall rel1 rel2, suffix rel1 = suffix rel2 -> extra_args rel1 = extra_args rel2) /\
  (forall dir stem, stem <> "" ->
     suffix (dir ++ [stem +:+ ".html"]) = ".html" /\
     suffix (dir ++ [stem +:+ ".css"]) = ".css" /\
     suffix (dir ++ [stem +:+ ".js"]) = ".js") /\
  extra_args ["styles.css"] = {[ "ContentType" := "text/css; charset=utf-8" ]} /\
  extra_args ["app.js"] = {[ "ContentType" := "application/javascript; charset=utf-8" ]} /\
  extra_args ["data.json"] = ∅.
Proof.
  split.
  - intros r Hin. apply main_upload_origin in Hin as (rel & bytes & Hfile & ->).
    exists rel, bytes. split; [exact Hfile|]. split; [reflexivity|].
    apply extra_args_table.
  - split.
    + intros rel1 rel2 H. unfold extra_args. rewrite H. reflexivity.
    + split; [|repeat split].
      intros dir stem Hstem. unfold suffix. rewrite !PathFacts.name_snoc.
      repeat split; apply PathFacts.suffix_of_stem_ext;
        solve [exact Hstem | discriminate | reflexivity].
Qed.

(** In the sample run, the upload of [styles.css] carries the CSS
    content type and the stored object has it. *)
Lemma content_type_by_extension_witness :
  (exists rel bytes,
    In (rel, File bytes) (rglob (dist Samples.calm)) /\
    Filename (upload_request Samples.calm "my-bucket" "site/" ["styles.css"])
      = str_under "/" "/srv/endodoncia/dist" rel /\
    (suffix rel = ".html" ->
       extra_args ["styles.css"] = {[ "ContentType" := "text/html; charset=utf-8" ]}) /\
    (suffix rel = ".css" ->
       extra_args ["styles.css"] = {[ "ContentType" := "text/css; charset=utf-8" ]}) /\
    (suffix rel = ".js" ->
       extra_args ["styles.css"]
         = {[ "ContentType" := "application/javascript; charset=utf-8" ]}) /\
    (suffix rel <> ".html" -> suffix rel <> ".css" -> suffix rel <> ".js" ->
       extra_args ["styles.css"] = ∅)) /\
  extra_args ["styles.css"] = extra_args ["a"; "print.css"] /\
  suffix (["a"] ++ ["print" +:+ ".css"]) = ".css".
Proof.
  destruct (content_type_by_extension Samples.calm initial) as (Hup & Hsame & Hstem & _).
  split; [|split].
  - apply (Hup (upload_request Samples.calm "my-bucket" "site/" ["styles.css"])).
    vm_compute. right. left. reflexivity.
  - apply Hsame. reflexivity.
  - apply (Hstem ["a"] "print"). discriminate.
Defined.

(** C9.  The dispatch on the extension is case-sensitive: a file whose
    extension is [.html], [.css] or [.js] up to letter case, but not in
    exactly that lowercase spelling, gets no [ContentType]; this holds
    of every upload a publish run makes, and [PAGE.HTML] is such a
    file. *)
Theorem content_type_case_sensitive (w : World) (st : State) :
  (forall rel lit,
     In lit [".html"; ".css"; ".js"] ->
     Py.lower (suffix rel) = lit -> suffix rel <> lit ->
     extra_args rel = ∅) /\
  (forall r, In r (uploads (sent_by (main w) st)) ->
     exists rel bytes,
       In (rel, File bytes) (rglob (dist w)) /\
       Filename r = str_under (sep w) (dist_dir w) rel /\
       (forall lit,
          In lit [".html"; ".css"; ".js"] ->
          Py.lower (suffix rel) = lit -> suffix rel <> lit ->
          ExtraArgs r = ∅)) /\
  suffix ["PAGE.HTML"] = ".HTML" /\
  extra_args ["PAGE.HTML"] = ∅.
Proof.
  assert (forall rel lit,
            In lit [".html"; ".css"; ".js"] ->
            Py.lower (suffix rel) = lit -> suffix rel <> lit ->
            extra_args rel = ∅) as Hcase.
  { intros rel lit Hlit Hlower Hne.
    apply extra_args_table; intros Heq; rewrite Heq in Hlower, Hne;
      simpl in Hlit; destruct Hlit as [<-|[<-|[<-|[]]]];
      solve [discriminate Hlower | apply Hne; reflexivity]. }
  split; [exact Hcase|]. split; [|split; reflexivity].
  intros r Hin. apply main_upload_origin in Hin as (rel & bytes & Hfile & ->).
  exists rel, bytes. split; [exact Hfile|]. split; [reflexivity|].
  apply Hcase.
Qed.

(** [PAGE.HTML] is uploaded without a content type. *)
Lemma content_type_case_sensitive_witness :
  extra_args ["PAGE.HTML"] = ∅ /\
  exists rel bytes,
    In (rel, File bytes) (rglob (dist Samples.calm)) /\
    Filename (upload_request Samples.calm "my-bucket" "site/" ["PAGE.HTML"])
      = str_under "/" "/srv/endodoncia/dist" rel /\
    (forall lit,
       In lit [".html"; ".css"; ".js"] ->
       Py.lower (suffix rel) = lit -> suffix rel <> lit ->
       ExtraArgs (upload_request Samples.calm "my-bucket" "site/" ["PAGE.HTML"]) = ∅).
Proof.
  destruct (content_type_case_sensitive Samples.calm initial) as (Hcase & Hup & _).
  split.
  - apply (Hcase ["PAGE.HTML"] ".html").
    + simpl. left. reflexivity.
    + vm_compute. reflexivity.
    + vm_compute. discriminate.
  - apply (Hup (upload_request Samples.calm "my-bucket" "site/" ["PAGE.HTML"])).
    vm_compute. do 4 right. left. reflexivity.
Defined.

(** C3.  When [AWS_S3_BUCKET] is unset or empty, or when the output
    root does not exist, the entry point ends with a fatal
    configuration message ([SystemExit]) and leaves the state as it
    found it: no request was sent (no upload, no invalidation), nothing
    was stored, nothing was printed. *)
Theorem configuration_checked_first (w : World) (st : State) :
  environ w !! "AWS_S3_BUCKET" = None \/
  environ w !! "AWS_S3_BUCKET" = Some "" \/
  dist w = None ->
  (main w st =
     (Raise (SystemExit "AWS_S3_BUCKET environment variable is required"), st) \/
   main w st =
     (Raise (SystemExit "dist/ not found. Run `uv run build-site` first."), st)) /\
  sent_by (main w) st = [] /\
  uploads (calls (snd (main w st))) = uploads (calls st) /\
  invalidations (calls (snd (main w st))) = invalidations (calls st).
Proof.
  intros H.
  assert (configured w = false) as Hcfg.
  { unfold configured. destruct H as [H|[H|H]]; rewrite H; simpl.
    - reflexivity.
    - reflexivity.
    - apply andb_false_r. }
  split.
  - rewrite (main_not_configured _ _ Hcfg).
    destruct (Py.truthy_opt (environ w !! "AWS_S3_BUCKET")); [right | left]; reflexivity.
  - split; [apply main_sent_not_configured, Hcfg|].
    rewrite (main_not_configured _ _ Hcfg). split; reflexivity.
Qed.

(** Without a bucket, and without [dist/]: the run stops at once. *)
Lemma configuration_checked_first_witness :
  sent_by (main Samples.unconfigured) initial = [] /\
  sent_by (main Samples.unbuilt) initial = [].
Proof.
  split.
  - apply (configuration_checked_first Samples.unconfigured initial).
    left. vm_compute. reflexivity.
  - apply (configuration_checked_first Samples.unbuilt initial).
    right. right. reflexivity.
Defined.

(** C10.  The upload loop stops at the first refusal.  When the first
    request the store refuses fails with a client error, the loop ends
    there with the handler's [RuntimeError], having sent the requests
    before it and that one, and none after it.  And in a publish run in
    which some upload was refused, with whatever exception, no
    invalidation is requested and the run ends with an exception. *)
Theorem publish_fail_fast (w : World) (st : State) :
  (forall bucket_name prefix paths before r bytes after text,
     planned w bucket_name prefix paths = before ++ (r, bytes) :: after ->
     Forall (fun x => s3_fault w (fst x) = None) before ->
     s3_fault w r = Some (ClientError text) ->
     fst (upload_paths w bucket_name prefix paths st) =
       Raise (RuntimeError ("Failed to upload " +:+ Filename r +:+ " -> " +:+ Key r
                            +:+ ": " +:+ text)) /\
     uploads (sent_by (upload_paths w bucket_name prefix paths) st) =
       map fst before ++ [r]) /\
  (forall r e,
     In r (uploads (sent_by (main w) st)) -> s3_fault w r = Some e ->
     invalidations (sent_by (main w) st) = [] /\
     exists e', fst (main w st) = Raise e').
Proof.
  split.
  - intros bucket_name prefix paths before r bytes after text Hplan Hbefore Hr.
    destruct (upload_paths_run w bucket_name prefix paths st) as (Hc & _ & Hres).
    rewrite Hplan in Hc, Hres.
    destruct (attempted_until_fault w before after r bytes _ Hbefore Hr) as [Ha Hf].
    rewrite Ha in Hc. rewrite Hf in Hres. split; [exact Hres|].
    rewrite (sent_by_app _ _ _ Hc). apply uploads_of_uploads.
  - intros r e Hin Hr. rewrite main_uploads in Hin. rewrite main_invalidations.
    destruct (configured w) eqn:Hcfg; [|destruct Hin].
    pose proof (attempted_fault_is_first _ _ _ _ Hin Hr) as Hf.
    rewrite Hf. split; [reflexivity|].
    destruct (main_run w st Hcfg) as (_ & _ & _ & Hres). rewrite Hf in Hres.
    eexists. exact Hres.
Qed.

(** The sample run in which [styles.css] is refused: [a/b.html] and
    [styles.css] were tried, nothing else, and no invalidation. *)
Lemma publish_fail_fast_witness :
  (uploads (sent_by (upload_paths Samples.css_denied "my-bucket" "site/"
                       (rglob (Some Samples.site))) initial) =
     [ upload_request Samples.css_denied "my-bucket" "site/" ["a"; "b.html"];
       upload_request Samples.css_denied "my-bucket" "site/" ["styles.css"] ]) /\
  invalidations (sent_by (main Samples.css_denied) initial) = [] /\
  exists e', fst (main Samples.css_denied initial) = Raise e'.
Proof.
  destruct (publish_fail_fast Samples.css_denied initial) as (Hloop & Hrun).
  split.
  - apply (Hloop "my-bucket" "site/" (rglob (Some Samples.site))
             [ (upload_request Samples.css_denied "my-bucket" "site/" ["a"; "b.html"],
                "<html>b</html>") ]
             (upload_request Samples.css_denied "my-bucket" "site/" ["styles.css"])
             "body{}"
             (drop 2 (planned Samples.css_denied "my-bucket" "site/"
                        (rglob (Some Samples.site))))
             "An error occurred (AccessDenied) when calling the PutObject operation: Access Denied").
    + vm_compute. reflexivity.
    + constructor; [vm_compute; reflexivity | constructor].
    + vm_compute. reflexivity.
  - apply (Hrun (upload_request Samples.css_denied "my-bucket" "site/" ["styles.css"])
                Samples.access_denied).
    + vm_compute. right. left. reflexivity.
    + vm_compute. reflexivity.
Defined.

(** C4, as stated, fails: the distribution id is set and not empty,
    yet the run in which [styles.css] is refused requests no
    invalidation at all ([main] never reaches [invalidate_cloudfront]). *)
Lemma invalidation_once_counterexample :
  ~ (Py.truthy_opt (distribution_of Samples.css_denied) = true ->
     exists r, invalidations (sent_by (main Samples.css_denied) initial) = [r]).
Proof.
  intros H. destruct H as [r Hr]; [vm_compute; reflexivity|].
  vm_compute in Hr. discriminate Hr.
Qed.

(** C4, amended.  Without a distribution id (unset or empty) a publish
    run requests no invalidation, and the invalidation step returns
    normally without touching anything.  With a non-empty id, the
    invalidation step sends exactly one request whenever it is entered,
    and a publish run that reaches it (bucket configured, output root
    present, no upload refused) sends exactly one: for the whole tree
    ([/*], quantity 1), with the caller reference ["endodoncia-"]
    followed by the hexadecimal rendering of 8 bytes drawn from the
    entropy source, which the run consumes, so that the next run draws
    the following 8.  Caller references made from different draws are
    different. *)
Theorem invalidation_once (w : World) (st : State) :
  (Py.truthy_opt (distribution_of w) = false ->
     invalidations (sent_by (main w) st) = [] /\
     invalidate_cloudfront w (distribution_of w) st = (Ok tt, st)) /\
  (forall id, id <> "" ->
     sent_by (invalidate_cloudfront w (Some id)) st =
       [ CreateInvalidation
           {| DistributionId := id; Quantity := 1; Items := ["/*"];
              CallerReference :=
                "endodoncia-" +:+ Py.hex (map (entropy w) (seq (drawn st) 8)) |} ]) /\
  (forall id, distribution_of w = Some id -> id <> "" ->
     configured w = true -> first_fault w (plan_of w) = None ->
     invalidations (sent_by (main w) st) =
       [ {| DistributionId := id; Quantity := 1; Items := ["/*"];
            CallerReference :=
              "endodoncia-" +:+ Py.hex (map (entropy w) (seq (drawn st) 8)) |} ] /\
     drawn (snd (main w st)) = drawn st + 8) /\
  (forall random1 random2,
     random1 <> random2 -> caller_reference random1 <> caller_reference random2).
Proof.
  split; [|split; [|split]].
  - intros Hfalse. split.
    + rewrite main_invalidations. unfold invalidation_of, invalidation_for.
      destruct (configured w); [|reflexivity].
      destruct (first_fault w (plan_of w)); [reflexivity|].
      destruct (distribution_of w) as [id|]; [|reflexivity].
      simpl in Hfalse. rewrite Hfalse. reflexivity.
    + unfold invalidate_cloudfront.
      destruct (distribution_of w) as [id|]; [|reflexivity].
      simpl in Hfalse. rewrite Hfalse. reflexivity.
  - intros id Hid. apply sent_by_app.
    destruct (invalidate_cloudfront_run w (Some id) st) as (Hc & _).
    rewrite Hc. unfold invalidation_for.
    destruct (Py.truthy id) eqn:Ht; [reflexivity|].
    apply PyFacts.truthy_false in Ht. contradiction.
  - intros id Hdist Hid Hcfg Hnone.
    assert (Py.truthy id = true) as Ht.
    { destruct (Py.truthy id) eqn:Ht; [reflexivity|].
      apply PyFacts.truthy_false in Ht. contradiction. }
    split.
    + rewrite main_invalidations, Hcfg, Hnone.
      unfold invalidation_of, invalidation_for. rewrite Hdist, Ht. reflexivity.
    + destruct (main_run w st Hcfg) as (_ & _ & Hd & _). rewrite Hd, Hnone.
      unfold invalidation_of, invalidation_for. rewrite Hdist, Ht. reflexivity.
  - intros random1 random2 Hne Heq. apply Hne.
    unfold caller_reference in Heq.
    apply PyFacts.append_injective_l in Heq. apply PyFacts.hex_injective, Heq.
Qed.

(** The calm sample run sends one invalidation, made from the first 8
    bytes of entropy; without a distribution id it sends none. *)
Lemma invalidation_once_witness :
  (invalidations (sent_by (main Samples.calm) initial) =
     [ {| DistributionId := "E2EXAMPLE"; Quantity := 1; Items := ["/*"];
          CallerReference := "endodoncia-0001020304050607" |} ] /\
   drawn (snd (main Samples.calm initial)) = 8) /\
  (invalidations (sent_by (main Samples.calm_no_cdn) initial) = [] /\
   invalidate_cloudfront Samples.calm_no_cdn (distribution_of Samples.calm_no_cdn) initial
     = (Ok tt, initial)) /\
  length (sent_by (invalidate_cloudfront Samples.cdn_denied (Some "E2EXAMPLE")) initial) = 1 /\
  caller_reference [Byte.x00; Byte.x01] <> caller_reference [Byte.x00; Byte.x02].
Proof.
  destruct (invalidation_once Samples.calm initial) as (_ & _ & Hrun & Hdistinct).
  split; [|split; [|split]].
  - apply (Hrun "E2EXAMPLE").
    + vm_compute. reflexivity.
    + discriminate.
    + vm_compute. reflexivity.
    + vm_compute. reflexivity.
  - destruct (invalidation_once Samples.calm_no_cdn initial) as (Hnone & _).
    apply Hnone. vm_compute. reflexivity.
  - destruct (invalidation_once Samples.cdn_denied initial) as (_ & Hstep & _).
    rewrite (Hstep "E2EXAMPLE"); [reflexivity | discriminate].
  - apply Hdistinct. discriminate.
Defined.

(** C5, as stated, fails: in the sample run where the upload of
    [styles.css] is refused with a credentials error, an upload failed
    and yet the run does not end with a [RuntimeError]. *)
Lemma upload_failure_surfaced_counterexample :
  ~ (forall r e,
       In r (uploads (sent_by (main Samples.css_no_credentials) initial)) ->
       s3_fault Samples.css_no_credentials r = Some e ->
       exists text,
         fst (main Samples.css_no_credentials initial) = Raise (RuntimeError text)).
Proof.
  intros H.
  destruct (H (upload_request Samples.css_no_credentials "my-bucket" "site/"
                 ["styles.css"])
              Samples.no_credentials) as [text Htext].
  - vm_compute. right. left. reflexivity.
  - vm_compute. reflexivity.
  - vm_compute in Htext. discriminate Htext.
Qed.

(** C5, amended.  Whenever an upload of a publish run is refused, the
    run ends with an exception that is that failure: for a client
    error, a [RuntimeError] whose text names the source path and the
    destination key; for an exception of any other class, that
    exception itself, as raised.  No refusal is dropped. *)
Theorem upload_failure_surfaced (w : World) (st : State)
    (r : UploadRequest) (e : exn) :
  In r (uploads (sent_by (main w) st)) ->
  s3_fault w r = Some e ->
  fst (main w st) = Raise (upload_failure r e) /\
  (forall text, e = ClientError text ->
     upload_failure r e =
       RuntimeError ("Failed to upload " +:+ Filename r +:+ " -> " +:+ Key r
                     +:+ ": " +:+ text)) /\
  ((forall text, e <> ClientError text) -> upload_failure r e = e).
Proof.
  intros Hin Hr. split; [|split].
  - rewrite main_uploads in Hin. destruct (configured w) eqn:Hcfg; [|destruct Hin].
    destruct (main_run w st Hcfg) as (_ & _ & _ & Hres).
    rewrite (attempted_fault_is_first _ _ _ _ Hin Hr) in Hres. exact Hres.
  - intros text ->. reflexivity.
  - intros Hother. destruct e; try reflexivity. destruct (Hother text). reflexivity.
Qed.

(** The sample run in which [styles.css] is refused with a client
    error. *)
Lemma upload_failure_surfaced_witness :
  fst (main Samples.css_denied initial) =
    Raise (RuntimeError
             ("Failed to upload /srv/endodoncia/dist/styles.css -> site/styles.css: "
              +:+ "An error occurred (AccessDenied) when calling the PutObject "
              +:+ "operation: Access Denied")).
Proof.
  apply (upload_failure_surfaced Samples.css_denied initial
           (upload_request Samples.css_denied "my-bucket" "site/" ["styles.css"])
           Samples.access_denied).
  - vm_compute. right. left. reflexivity.
  - vm_compute. reflexivity.
Defined.

(** C6, as stated, fails: in the sample run where the CDN cannot be
    reached, the invalidation call fails and yet the run does not end
    with a [RuntimeError]. *)
Lemma invalidation_failure_surfaced_counterexample :
  ~ (forall r e,
       In r (invalidations (sent_by (main Samples.cdn_unreachable) initial)) ->
       cf_answer Samples.cdn_unreachable r = inl e ->
       exists text,
         fst (main Samples.cdn_unreachable initial) = Raise (RuntimeError text)).
Proof.
  intros H.
  destruct (H {| DistributionId := "E2EXAMPLE"; Quantity := 1; Items := ["/*"];
                 CallerReference := "endodoncia-0001020304050607" |}
              (OtherException "EndpointConnectionError"
                 "Could not connect to the endpoint URL")) as [text Htext].
  - vm_compute. left. reflexivity.
  - reflexivity.
  - vm_compute in Htext. discriminate Htext.
Qed.

(** C6, amended.  When the invalidation call of a publish run fails,
    the run ends with an exception that is that failure: for a client
    error, a [RuntimeError] saying that the invalidation could not be
    created; for an exception of any other class, that exception
    itself, as raised.  Either way the uploads stay: every file of the
    plan was uploaded, the store is the one the upload loop left, and
    it holds an object under the key of every upload. *)
Theorem invalidation_failure_surfaced (w : World) (st : State)
    (r : InvalidationRequest) (e : exn) :
  In r (invalidations (sent_by (main w) st)) ->
  cf_answer w r = inl e ->
  fst (main w st) = Raise (invalidation_failure e) /\
  (forall text, e = ClientError text ->
     invalidation_failure e =
       RuntimeError ("Failed to create invalidation: " +:+ text)) /\
  ((forall text, e <> ClientError text) -> invalidation_failure e = e) /\
  uploads (sent_by (main w) st) = map fst (plan_of w) /\
  store (snd (main w st)) =
    store (snd (upload_directory_to_s3 w (bucket_of w) (prefix_of w) st)) /\
  (forall u, In u (uploads (sent_by (main w) st)) ->
     is_Some (store (snd (main w st)) !! (Bucket u, Key u))).
Proof.
  intros Hin Hr. rewrite main_invalidations in Hin.
  destruct (configured w) eqn:Hcfg; [|destruct Hin].
  destruct (first_fault w (plan_of w)) as [[r0 e0]|] eqn:Hnone; [destruct Hin|].
  destruct (main_run w st Hcfg) as (_ & Hstore & _ & Hres).
  rewrite Hnone in Hres.
  assert (uploads (sent_by (main w) st) = map fst (plan_of w)) as Hup.
  { rewrite main_uploads, Hcfg. apply attempted_no_fault, Hnone. }
  split; [|split; [|split; [|split; [exact Hup | split; [exact Hstore|]]]]].
  - rewrite Hres. unfold invalidation_result.
    destruct (invalidation_of w st) as [|r1 rest] eqn:Hreq; [destruct Hin|].
    assert (rest = []) as ->.
    { unfold invalidation_of, invalidation_for in Hreq.
      destruct (distribution_of w) as [id|]; [|discriminate].
      destruct (Py.truthy id); [|discriminate].
      injection Hreq as _ <-. reflexivity. }
    destruct Hin as [->|[]]. rewrite Hr. reflexivity.
  - intros text ->. reflexivity.
  - intros Hother. destruct e; try reflexivity. destruct (Hother text). reflexivity.
  - intros u Hu. rewrite Hup in Hu. rewrite Hstore.
    unfold upload_directory_to_s3. apply upload_paths_store.
    + exact Hnone.
    + right. apply (in_map (fun r => (Bucket r, Key r))). exact Hu.
Qed.

(** The sample run in which the CDN refuses the invalidation with a
    client error. *)
Lemma invalidation_failure_surfaced_witness :
  fst (main Samples.cdn_denied initial) =
    Raise (RuntimeError
             "Failed to create invalidation: An error occurred (AccessDenied)") /\
  is_Some (store (snd (main Samples.cdn_denied initial))
             !! ("my-bucket", "site/a/b.html")).
Proof.
  destruct (invalidation_failure_surfaced Samples.cdn_denied initial
              {| DistributionId := "E2EXAMPLE"; Quantity := 1; Items := ["/*"];
                 CallerReference := "endodoncia-0001020304050607" |}
              (ClientError "An error occurred (AccessDenied)"))
    as (Hres & _ & _ & _ & _ & Hkept).
  - vm_compute. left. reflexivity.
  - reflexivity.
  - split; [exact Hres|].
    apply (Hkept (upload_request Samples.cdn_denied "my-bucket" "site/" ["a"; "b.html"])).
    vm_compute. left. reflexivity.
Defined.

End DeployClaims.

(* ===================================================================== *)
(** * serve.py: the property of the specification *)
(* ===================================================================== *)

Module ServeClaims.
Import Serve.

(** What [serve_site] does when binding the port raises, in a built
    tree: one bind attempt, and nothing after it. *)
Lemma serve_site_bind_fault (w : World) (port : Z) (st : State) (e : exn) :
  dist_exists w = true ->
  bind_fault w port = Some e ->
  actions (snd (serve_site w port st)) = actions st ++ [Bind "localhost" port].
Proof.
  intros Hdist Hbind. unfold serve_site, try_body. rewrite Hdist, Hbind. simpl.
  destruct e as [|text|cls text]; [reflexivity| |reflexivity].
  destruct (Py.contains "Address already in use" text); reflexivity.
Qed.

(** The serve loop is entered only after a successful bind. *)
Lemma serve_forever_needs_bind (w : World) (port : Z) (st : State) :
  bind_fault w port <> None ->
  ~ In ServeForever (actions st) ->
  ~ In ServeForever (actions (snd (serve_site w port st))).
Proof.
  intros Hbind Hst. destruct (bind_fault w port) as [e|] eqn:He; [|congruence].
  destruct (dist_exists w) eqn:Hdist.
  - rewrite (serve_site_bind_fault w port st e Hdist He).
    rewrite in_app_iff. intros [H|[H|[]]]; [exact (Hst H) | discriminate H].
  - unfold serve_site. rewrite Hdist. exact Hst.
Qed.

(** C8, as stated, fails: the port is taken, but [dist/] was never
    built; the script reports the missing directory and no line it
    prints mentions port 8001. *)
Lemma port_in_use_counterexample :
  ~ (bind_fault Samples.port_taken_unbuilt 8000
       = Some (OSError "[Errno 98] Address already in use") ->
     exists line,
       In line (stdout (snd (serve_site Samples.port_taken_unbuilt 8000 initial))) /\
       Py.contains (Py.str_int (8000 + 1)) line = true).
Proof.
  intros H. destruct H as (line & Hin & Hline); [reflexivity|].
  vm_compute in Hin. destruct Hin as [<-|[]].
  vm_compute in Hline. discriminate Hline.
Qed.

(** C8, amended.  When the [dist] directory exists and binding the port
    raises an [OSError] whose text contains "Address already in use"
    (how the script recognises a port that is taken), [serve_site]
    prints, after its six banner lines, the diagnostic naming the port
    and the hint to retry with [port + 1], and returns: it made one
    bind attempt, did not retry, did not open the browser and did not
    enter the serve loop, and the process ends with status 0.
    Whenever binding the port raises, the serve loop is not entered. *)
Theorem port_in_use (w : World) (port : Z) (st : State) (text : string) :
  dist_exists w = true ->
  bind_fault w port = Some (OSError text) ->
  Py.contains "Address already in use" text = true ->
  fst (serve_site w port st) = Returns /\
  (exists banner,
     length banner = 6 /\
     stdout (snd (serve_site w port st)) =
       stdout st ++ banner ++
       [ "❌ Port " +:+ Py.str_int port +:+ " is already in use. Try a different port:";
         "   python serve.py " +:+ Py.str_int (port + 1) ]) /\
  actions (snd (serve_site w port st)) = actions st ++ [Bind "localhost" port] /\
  (forall parse_int prog arg rest,
     parse_int arg = Some port ->
     fst (script parse_int w (prog :: arg :: rest)) = Exit 0 /\
     ~ In ServeForever (actions (snd (script parse_int w (prog :: arg :: rest))))) /\
  (forall w' port' st',
     bind_fault w' port' <> None ->
     ~ In ServeForever (actions st') ->
     ~ In ServeForever (actions (snd (serve_site w' port' st')))).
Proof.
  intros Hdist Hbind Htext.
  assert (forall s,
            serve_site w port s =
            (Returns,
             print ("   python serve.py " +:+ Py.str_int (port + 1))
               (print ("❌ Port " +:+ Py.str_int port
                       +:+ " is already in use. Try a different port:")
                  (act (Bind "localhost" port)
                     (print (repeat_string "-" 50)
                        (print "⏹️  Press Ctrl+C to stop the server"
                           (print "📱 The site will open automatically in your browser"
                              (print ("🌐 URL: http://localhost:" +:+ Py.str_int port)
                                 (print ("📁 Serving: " +:+ dist_dir w)
                                    (print "🚀 Starting server..." s)))))))))) as Hrun.
  { intros s. unfold serve_site, try_body. rewrite Hdist, Hbind. cbv zeta.
    rewrite Htext. reflexivity. }
  split; [rewrite Hrun; reflexivity|].
  split.
  - exists [ "🚀 Starting server...";
             "📁 Serving: " +:+ dist_dir w;
             "🌐 URL: http://localhost:" +:+ Py.str_int port;
             "📱 The site will open automatically in your browser";
             "⏹️  Press Ctrl+C to stop the server";
             repeat_string "-" 50 ].
    split; [reflexivity|]. rewrite Hrun. unfold print, act. cbn [snd stdout].
    rewrite <- !app_assoc. reflexivity.
  - split; [apply (serve_site_bind_fault w port st _ Hdist Hbind)|].
    split; [|intros w' port' st'; apply serve_forever_needs_bind].
    intros parse_int prog arg rest Hparse. unfold script. rewrite Hparse, Hrun.
    cbn [fst snd]. split; [reflexivity|].
    unfold print, act, initial. cbn [actions app].
    intros [H|[]]. discriminate H.
Qed.

(** The sample host, built and with the port taken. *)
Lemma port_in_use_witness :
  fst (serve_site Samples.port_taken 8000 initial) = Returns /\
  actions (snd (serve_site Samples.port_taken 8000 initial)) = [Bind "localhost" 8000] /\
  In "   python serve.py 8001"
     (stdout (snd (serve_site Samples.port_taken 8000 initial))) /\
  fst (script Samples.parse_port Samples.port_taken ["serve.py"; "8000"]) = Exit 0.
Proof.
  destruct (port_in_use Samples.port_taken 8000 initial
              "[Errno 98] Address already in use")
    as (Hret & (banner & Hlen & Hout) & Hact & Hscript & _).
  - reflexivity.
  - reflexivity.
  - vm_compute. reflexivity.
  - split; [exact Hret|]. split; [exact Hact|]. split.
    + rewrite Hout. rewrite !in_app_iff. right. right. right. left. reflexivity.
    + apply (Hscript Samples.parse_port "serve.py" "8000" []). reflexivity.
Defined.

End ServeClaims.

(* ===================================================================== *)
(** * build.py: trees and the file-system calls *)
(* ===================================================================== *)

Module BuildFacts.
Import Pathlib Build.

(** Induction on trees, with the hypothesis for every entry of a
    directory. *)
Lemma node_induction (P : node -> Prop) :
  (forall bytes, P (File bytes)) ->
  (forall entries, Forall (fun e => P (snd e)) entries -> P (Dir entries)) ->
  forall n, P n.
Proof.
  intros HFile HDir. fix IH 1. intros [bytes|entries].
  - apply HFile.
  - apply HDir. revert entries. fix each 1. intros [|e entries].
    + constructor.
    + constructor; [apply IH | apply each].
Qed.

(** The enumeration of [rglob] and [tree_files] list the same regular
    files, in the same order. *)
Lemma regular_files_rglob_from (n : node) :
  forall rel,
    regular_files (rglob_from rel n) =
    match n with
    | File _ => []
    | Dir _ => map (fun f => (rel ++ fst f, snd f)) (tree_files n)
    end.
Proof.
  induction n as [bytes|entries IH] using node_induction; intros rel; [reflexivity|].
  simpl. induction IH as [|[d c] entries Hc _ IHentries]; [reflexivity|].
  cbn [flat_map]. rewrite PathFacts.regular_files_app, map_app, IHentries.
  f_equal. simpl in Hc. specialize (Hc (rel ++ [d])).
  cbn [fst snd]. unfold regular_files at 1. cbn [flat_map fst snd].
  fold (regular_files (rglob_from (rel ++ [d]) c)). rewrite Hc.
  destruct c as [bytes|sub]; simpl.
  - reflexivity.
  - rewrite map_map. apply map_ext. intros [q x]. simpl.
    rewrite <- app_assoc. reflexivity.
Qed.

Lemma regular_files_rglob (here : option node) (rel : rel_path) (bytes : string) :
  In (rel, bytes) (regular_files (rglob here)) ->
  In (rel, bytes) (files_at here).
Proof.
  destruct here as [n|]; simpl; [|tauto].
  rewrite regular_files_rglob_from. destruct n as [c|entries]; [intros []|].
  rewrite in_map_iff. intros [[q x] [Heq Hin]]. simpl in Heq.
  injection Heq as <- <-. exact Hin.
Qed.

Lemma files_at_dir_rglob (entries : list (string * node)) (rel : rel_path)
    (bytes : string) :
  In (rel, bytes) (tree_files (Dir entries)) ->
  In (rel, File bytes) (rglob (Some (Dir entries))).
Proof.
  intros Hin. apply PathFacts.in_regular_files. unfold rglob.
  rewrite (regular_files_rglob_from (Dir entries) []).
  apply in_map_iff. exists (rel, bytes). split; [reflexivity | exact Hin].
Qed.

(** ** Directory listings *)

Lemma in_tree_files_dir (entries : list (string * node)) (p : rel_path) (x : string) :
  In (p, x) (tree_files (Dir entries)) <->
  exists d c q, In (d, c) entries /\ p = d :: q /\ In (q, x) (tree_files c).
Proof.
  simpl. rewrite in_flat_map. split.
  - intros [[d c] [Hin Hmap]]. apply in_map_iff in Hmap as [[q y] [Heq Hq]].
    simpl in Heq. injection Heq as <- <-. exists d, c, q. auto.
  - intros (d & c & q & Hin & -> & Hq). exists (d, c). split; [exact Hin|].
    apply in_map_iff. exists (q, x). auto.
Qed.

Lemma lookup_entry_in (d : string) (entries : list (string * node)) (c : node) :
  lookup_entry d entries = Some c -> In (d, c) entries.
Proof.
  induction entries as [|[n old] rest IH]; simpl; [discriminate|].
  destruct (String.eqb_spec n d) as [->|Hne].
  - intros H. injection H as ->. left. reflexivity.
  - intros H. right. apply IH, H.
Qed.

Lemma in_set_entry (d : string) (c : node) (entries : list (string * node))
    (d' : string) (c' : node) :
  In (d', c') (set_entry d c entries) ->
  (d' = d /\ c' = c) \/ In (d', c') entries.
Proof.
  induction entries as [|[n old] rest IH]; simpl.
  - intros [H|[]]. injection H as <- <-. left. auto.
  - destruct (String.eqb_spec n d) as [->|Hne]; simpl.
    + intros [H|H]; [injection H as <- <-; left; auto | right; right; exact H].
    + intros [H|H]; [right; left; exact H|].
      destruct (IH H) as [Hnew|Hold]; [left; exact Hnew | right; right; exact Hold].
Qed.

(** The files of a directory after one of its entries was rewritten:
    those the new entry holds, or files that were there. *)
Lemma files_after_set_entry (d : string) (c : node) (entries : list (string * node))
    (Q : rel_path -> string -> Prop) :
  (forall q x, In (q, x) (tree_files c) ->
               Q q x \/ In (q, x) (files_at (lookup_entry d entries))) ->
  forall p x, In (p, x) (tree_files (Dir (set_entry d c entries))) ->
              (exists q, p = d :: q /\ Q q x) \/ In (p, x) (tree_files (Dir entries)).
Proof.
  intros Hc p x Hin.
  apply in_tree_files_dir in Hin as (d' & c' & q & Hentry & -> & Hq).
  apply in_set_entry in Hentry as [[-> ->]|Hold].
  - destruct (Hc q x Hq) as [HQ|Hwas].
    + left. exists q. auto.
    + right. destruct (lookup_entry d entries) as [c0|] eqn:Hlook; [|destruct Hwas].
      apply in_tree_files_dir. exists d, c0, q.
      split; [apply lookup_entry_in, Hlook | auto].
  - right. apply in_tree_files_dir. exists d', c', q. auto.
Qed.

(** ** The file-system calls *)

(** [mkdir] leaves a directory and adds no file. *)
Lemma mkdir_parents_files (rel : rel_path) :
  forall here n,
    mkdir_parents rel here = inr n ->
    (exists entries, n = Dir entries) /\
    forall p x, In (p, x) (tree_files n) -> In (p, x) (files_at here).
Proof.
  induction rel as [|d rest IH]; intros here n.
  - destruct here as [[bytes|entries]|]; simpl; intros H; try discriminate;
      injection H as <-; split; eauto.
  - destruct here as [[bytes|entries]|]; simpl; [discriminate | |].
    + destruct (mkdir_parents rest (lookup_entry d entries)) as [e|c] eqn:Hsub;
        [discriminate|].
      intros H. injection H as <-. split; [eauto|].
      destruct (IH _ _ Hsub) as [_ Hfiles].
      intros p x Hin.
      destruct (files_after_set_entry d c entries (fun _ _ => False)) with (p := p) (x := x)
        as [(q & _ & [])|Hwas]; [|exact Hin|exact Hwas].
      intros q y Hq. right. apply Hfiles, Hq.
    + destruct (mkdir_parents rest None) as [e|c] eqn:Hsub; [discriminate|].
      intros H. injection H as <-. split; [eauto|].
      destruct (IH _ _ Hsub) as [_ Hfiles].
      intros p x Hin. apply in_tree_files_dir in Hin as (d' & c' & q & Hentry & _ & Hq).
      destruct Hentry as [Hentry|[]]. injection Hentry as <- <-.
      apply (Hfiles q x Hq).
Qed.

(** [write_text] below a directory leaves a directory, and adds at most
    the file written. *)
Lemma write_text_files (rel : rel_path) (text : string) :
  forall here n,
    write_text rel text here = inr n ->
    (rel <> [] -> exists entries, n = Dir entries) /\
    forall p x, In (p, x) (tree_files n) ->
                (p = rel /\ x = text) \/ In (p, x) (files_at here).
Proof.
  induction rel as [|d rest IH]; intros here n.
  - simpl. intros H. split; [congruence|].
    assert (n = File text) as ->.
    { destruct here as [[bytes|entries]|]; congruence. }
    simpl. intros p x [Hin|[]]. injection Hin as <- <-. left. auto.
  - simpl. destruct here as [[bytes|entries]|]; try discriminate.
    destruct (write_text rest text (lookup_entry d entries)) as [e|c] eqn:Hsub;
      [discriminate|].
    intros H. injection H as <-. split; [eauto|].
    destruct (IH _ _ Hsub) as [_ Hfiles].
    intros p x Hin.
    destruct (files_after_set_entry d c entries (fun q y => q = rest /\ y = text))
      with (p := p) (x := x) as [(q & -> & -> & ->)|Hwas];
      [exact Hfiles | exact Hin | left; auto | right; exact Hwas].
Qed.

(** [copytree] to a path below a directory leaves a directory, and adds
    at most the files of the source, below that path. *)
Lemma place_tree_files (rel : rel_path) (src : node) :
  forall here n,
    place_tree rel src here = inr n ->
    (rel <> [] -> exists entries, n = Dir entries) /\
    forall p x, In (p, x) (tree_files n) ->
                (exists q, p = rel ++ q /\ In (q, x) (tree_files src)) \/
                In (p, x) (files_at here).
Proof.
  induction rel as [|d rest IH]; intros here n.
  - simpl. destruct here as [c|]; [discriminate|].
    intros H. injection H as <-. split; [congruence|].
    intros p x Hin. left. exists p. auto.
  - simpl. destruct here as [[bytes|entries]|]; [discriminate | |].
    + destruct (place_tree rest src (lookup_entry d entries)) as [e|c] eqn:Hsub;
        [discriminate|].
      intros H. injection H as <-. split; [eauto|].
      destruct (IH _ _ Hsub) as [_ Hfiles].
      intros p x Hin.
      destruct (files_after_set_entry d c entries
                  (fun q y => exists q', q = rest ++ q' /\ In (q', y) (tree_files src)))
        with (p := p) (x := x) as [(q & -> & q' & -> & Hq')|Hwas];
        [exact Hfiles | exact Hin | left; exists q'; auto | right; exact Hwas].
    + destruct (place_tree rest src None) as [e|c] eqn:Hsub; [discriminate|].
      intros H. injection H as <-. split; [eauto|].
      destruct (IH _ _ Hsub) as [_ Hfiles].
      intros p x Hin. apply in_tree_files_dir in Hin as (d' & c' & q & Hentry & -> & Hq).
      destruct Hentry as [Hentry|[]]. injection Hentry as <- <-.
      destruct (Hfiles q x Hq) as [(q' & -> & Hq')|[]].
      left. exists q'. auto.
Qed.

Lemma split_slash_not_nil (s : string) : split_slash s <> [].
Proof.
  destruct s as [|c rest]; simpl; [discriminate|].
  destruct (Ascii.eqb c "/"); [discriminate|].
  destruct (split_slash rest); discriminate.
Qed.

(** ** The steps of the build *)

Lemma clean_dist_run (st : State) :
  clean_dist st =
    if is_file (dist st)
    then (Raise (Exception "NotADirectoryError" "rmtree"), st)
    else (Ok tt, {| dist := Some (Dir []); stdout := stdout st |}).
Proof.
  unfold clean_dist, on_dist. destruct st as [[[bytes|entries]|] out]; reflexivity.
Qed.

Lemma build_with_run (w : World) (context : gmap string value) (st : State) :
  build_with w context st =
    if is_file (dist st)
    then (Raise (Exception "NotADirectoryError" "rmtree"), st)
    else fill_dist w context {| dist := Some (Dir []); stdout := stdout st |}.
Proof.
  unfold build_with, fill_dist. unfold bind at 1. rewrite clean_dist_run.
  destruct (is_file (dist st)); reflexivity.
Qed.

Lemma build_is_build_with (w : World) : build w = build_with w get_site_context.
Proof. reflexivity. Qed.

(** ** What the output root holds *)

Section Produced.
Variable w : World.
Variable context : gmap string value.
Variable mapping : list (string * string).

Lemma render_one_keeps (pair : string * string) (st : State) :
  In pair mapping ->
  only_produced w context mapping st ->
  only_produced w context mapping (snd (render_one w context pair st)).
Proof.
  intros Hpair Hst. unfold render_one, bind, lift, ret, raise.
  destruct (get_template w (fst pair)) as [e|tpl] eqn:Htpl; [exact Hst|].
  destruct (tpl context) as [e|html] eqn:Hhtml; [exact Hst|].
  unfold on_dist at 1. cbn [dist].
  destruct (mkdir_parents (removelast (split_slash (snd pair))) (dist st))
    as [e|n1] eqn:Hmk; [exact Hst|].
  destruct (mkdir_parents_files _ _ _ Hmk) as [Hdir1 Hfiles1].
  assert (only_produced w context mapping {| dist := Some n1; stdout := stdout st |})
    as Hst1.
  { split.
    - destruct Hdir1 as [entries ->]. exists entries. reflexivity.
    - intros rel bytes Hin. apply Hst, Hfiles1, Hin. }
  unfold on_dist. cbn [dist stdout].
  destruct (write_text (split_slash (snd pair)) html (Some n1)) as [e|n2] eqn:Hwr;
    [exact Hst1|].
  destruct (write_text_files _ _ _ _ Hwr) as [Hdir2 Hfiles2].
  split.
  { destruct (Hdir2 (split_slash_not_nil _)) as [entries ->].
    exists entries. reflexivity. }
  intros rel bytes Hin. cbn [snd dist files_at] in Hin.
  destruct (Hfiles2 rel bytes Hin) as [[-> ->]|Hwas].
  - right. exists (fst pair), (snd pair), tpl.
    rewrite <- surjective_pairing. auto.
  - apply Hst1, Hwas.
Qed.

Lemma render_all_keeps (pairs : list (string * string)) :
  forall st,
    (forall pair, In pair pairs -> In pair mapping) ->
    only_produced w context mapping st ->
    only_produced w context mapping (snd (render_all w context pairs st)).
Proof.
  induction pairs as [|pair rest IH]; intros st Hsub Hst; [exact Hst|].
  unfold render_all. cbn [for_each]. unfold bind.
  pose proof (render_one_keeps pair st (Hsub pair (or_introl eq_refl)) Hst) as Hone.
  destruct (render_one w context pair st) as [[[]|e] st1]; [|exact Hone].
  apply IH; [|exact Hone]. intros p Hp. apply Hsub. right. exact Hp.
Qed.

Lemma copy_assets_keeps (st : State) :
  only_produced w context mapping st ->
  only_produced w context mapping (snd (copy_assets w st)).
Proof.
  intros Hst. unfold copy_assets.
  destruct (assets w) as [[bytes|entries]|] eqn:Hassets; simpl; try exact Hst.
  unfold on_dist, copytree.
  destruct (place_tree ["assets"] (Dir entries) (dist st)) as [e|n] eqn:Hplace;
    [exact Hst|].
  destruct (place_tree_files _ _ _ _ Hplace) as [Hdir Hfiles].
  split.
  { destruct Hdir as [sub ->]; [discriminate|]. exists sub. reflexivity. }
  intros rel bytes Hin. cbn [snd dist files_at] in Hin.
  destruct (Hfiles rel bytes Hin) as [(q & -> & Hq)|Hwas]; [|apply Hst, Hwas].
  left. exists q. split; [reflexivity|].
  unfold from_assets. rewrite Hassets. apply files_at_dir_rglob, Hq.
Qed.

End Produced.

(** After the steps that follow [clean_dist], started on an empty
    output root, the output root is a directory that holds only what
    those steps produced. *)
Lemma fill_dist_produced (w : World) (context : gmap string value)
    (out : list string) :
  only_produced w context templates
    (snd (fill_dist w context {| dist := Some (Dir []); stdout := out |})).
Proof.
  assert (only_produced w context templates {| dist := Some (Dir []); stdout := out |})
    as Hstart.
  { split; [eauto|]. intros rel bytes []. }
  unfold fill_dist, bind.
  pose proof (copy_assets_keeps w context templates _ Hstart) as Hcopy.
  destruct (copy_assets w {| dist := Some (Dir []); stdout := out |})
    as [[[]|e] st1]; [|exact Hcopy].
  pose proof (render_all_keeps w context templates templates st1
                (fun _ H => H) Hcopy) as Hrender.
  destruct (render_all w context templates st1) as [[[]|e] st2]; [|exact Hrender].
  exact Hrender.
Qed.

End BuildFacts.

(* ===================================================================== *)
(** * build.py: the property of the specification *)
(* ===================================================================== *)

Module BuildClaims.
Import Pathlib Build BuildFacts.

(** C7.  Building is deterministic and leaves nothing stale.  The
    script is the build at the site context; for every context, with
    the fixed template mapping: running the build again on the output
    root a run left, with the same templates and assets, gives the
    same result, the same output tree (every file with the same bytes)
    and the same messages; whatever tree was in the output root before
    a run, a following run (even with other templates, assets or
    context) ends exactly as it would on an absent output root; and
    every regular file found in the output root after a run is a copy
    of a file of the assets tree below [assets/], or the rendering of a
    template of the mapping at its output path.  (The hypothesis leaves
    out only an output root that is a regular file, on which
    [clean_dist] stops; a run never turns the output root into one.) *)
Theorem build_deterministic (w : World) (context : gmap string value)
    (previous : option node) :
  run w previous = run_with w get_site_context previous /\
  run_with w context (dist (snd (run_with w context previous)))
    = run_with w context previous /\
  (is_file previous = false ->
   forall w' context',
     run_with w' context' (dist (snd (run_with w context previous)))
       = run_with w' context' None) /\
  (is_file previous = false ->
   forall rel bytes,
     In (rel, bytes) (output_files (snd (run_with w context previous))) ->
     from_assets w rel bytes \/ from_template w context templates rel bytes).
Proof.
  split; [reflexivity|].
  assert (is_file previous = false ->
          run_with w context previous =
            fill_dist w context {| dist := Some (Dir []); stdout := [] |} /\
          is_file (dist (snd (run_with w context previous))) = false) as Hclean.
  { intros Hprev. unfold run_with. rewrite build_with_run. cbn [dist stdout].
    rewrite Hprev. split; [reflexivity|].
    destruct (fill_dist_produced w context []) as [[entries Hdir] _].
    rewrite Hdir. reflexivity. }
  split; [|split].
  - destruct (is_file previous) eqn:Hprev.
    + unfold run_with at 2. rewrite build_with_run. cbn [dist stdout].
      rewrite Hprev. reflexivity.
    + destruct (Hclean eq_refl) as [Hrun Hdir].
      unfold run_with at 1. rewrite build_with_run. cbn [dist stdout].
      rewrite Hdir. symmetry. exact Hrun.
  - intros Hprev w' context'. destruct (Hclean Hprev) as [_ Hdir].
    unfold run_with at 1 3. rewrite !build_with_run. cbn [dist stdout].
    rewrite Hdir. reflexivity.
  - intros Hprev rel bytes Hin. destruct (Hclean Hprev) as [Hrun _].
    unfold output_files in Hin. apply regular_files_rglob in Hin.
    rewrite Hrun in Hin.
    apply (fill_dist_produced w context []). exact Hin.
Qed.

(** A build over the stale output root: the old page is gone, and what
    is there is what a build into an absent output root gives. *)
Lemma build_deterministic_witness :
  run_with (Samples.build_world true) get_site_context
    (dist (snd (run_with (Samples.build_world false) get_site_context
                  (Some Samples.stale_dist))))
  = run_with (Samples.build_world true) get_site_context None /\
  (from_assets (Samples.build_world false) ["assets"; "css"; "site.css"] "body{}" \/
   from_template (Samples.build_world false) get_site_context templates
     ["assets"; "css"; "site.css"] "body{}").
Proof.
  destruct (build_deterministic (Samples.build_world false) get_site_context
              (Some Samples.stale_dist)) as (_ & _ & Hfresh & Hfiles).
  split.
  - apply Hfresh. reflexivity.
  - apply Hfiles; [reflexivity|]. vm_compute. left. reflexivity.
Defined.

End BuildClaims.


(* ===================================================================== *)
(** * deploy.py: further properties *)
(* ===================================================================== *)

Module DeployExtra.
Import Pathlib Deploy DeployFacts DeployMore.

(** ** Strings *)

Lemma append_nil_r (s : string) : s +:+ "" = s.
Proof.
  induction s as [|c s IH]; [reflexivity|].
  change (String c (s +:+ "") = String c s). rewrite IH. reflexivity.
Qed.

Lemma append_assoc_r (a b c : string) : (a +:+ b) +:+ c = a +:+ b +:+ c.
Proof.
  induction a as [|x a IH]; [reflexivity|].
  change (String x ((a +:+ b) +:+ c) = String x (a +:+ b +:+ c)).
  rewrite IH. reflexivity.
Qed.

Lemma prefix_append (p tail : string) : String.prefix p (p +:+ tail) = true.
Proof.
  induction p as [|c p IH]; simpl.
  - destruct tail; reflexivity.
  - destruct (Ascii.ascii_dec c c) as [_|Hne]; [exact IH | destruct Hne; reflexivity].
Qed.

Lemma hex_length (bs : list Byte.byte) : String.length (Py.hex bs) = 2 * length bs.
Proof. induction bs as [|b bs IH]; simpl; [reflexivity | rewrite IH; lia]. Qed.

Lemma hex_byte_lower (b : Byte.byte) :
  is_lower_hex (Py.hex_digit (Byte.to_N b / 16)) = true /\
  is_lower_hex (Py.hex_digit (Byte.to_N b mod 16)) = true.
Proof. destruct b; vm_compute; split; reflexivity. Qed.

Lemma hex_lower (bs : list Byte.byte) : all_chars is_lower_hex (Py.hex bs) = true.
Proof.
  induction bs as [|b bs IH]; [reflexivity|].
  destruct (hex_byte_lower b) as [Hhi Hlo].
  cbn [Py.hex all_chars]. rewrite Hhi, Hlo, IH. reflexivity.
Qed.

(** What follows the first component in a slash-joined path. *)
Lemma concat_slash_cons (d : string) (rest : list string) :
  String.concat "/" (d :: rest) =
  d +:+ match rest with
        | [] => ""
        | _ :: _ => String "/" (String.concat "/" rest)
        end.
Proof. destruct rest; simpl; [symmetry; apply append_nil_r | reflexivity]. Qed.





(** ** What the loop prints and stores *)

Lemma planned_cons_file (w : World) (bucket_name prefix : string) (rel : rel_path)
    (bytes : string) (rest : list (rel_path * node)) :
  planned w bucket_name prefix ((rel, File bytes) :: rest) =
  (upload_request w bucket_name prefix rel, bytes) :: planned w bucket_name prefix rest.
Proof. reflexivity. Qed.

Lemma upload_paths_effects (w : World) (bucket_name prefix : string)
    (paths : list (rel_path * node)) :
  forall st,
    let done := completed w (planned w bucket_name prefix paths) in
    let out := upload_paths w bucket_name prefix paths st in
    stdout (snd out) =
      stdout st ++ map (fun x => uploaded_line bucket_name (fst x)) done /\
    store (snd out) =
      fold_left (fun m x => <[slot x := stored x]> m) done (store st).
Proof.
  induction paths as [|[rel n] rest IH]; intros st.
  - simpl. rewrite app_nil_r. split; reflexivity.
  - destruct n as [bytes|entries].
    + cbv zeta. rewrite upload_paths_cons_file, planned_cons_file.
      cbn [completed].
      destruct (s3_fault w (upload_request w bucket_name prefix rel)) as [e|].
      * cbn [fst snd stdout store map fold_left]. rewrite app_nil_r. split; reflexivity.
      * match goal with
        | |- context [upload_paths _ _ _ rest ?s] => specialize (IH s)
        end.
        cbv zeta in IH. destruct IH as [Hout Hstore].
        rewrite Hout, Hstore. cbn [stdout store map fold_left fst snd].
        rewrite <- app_assoc. split; reflexivity.
    + cbv zeta. rewrite upload_paths_cons_dir. apply IH.
Qed.

Lemma fold_insert_other (l : list (UploadRequest * string)) :
  forall (m : gmap (string * string) S3Object) k,
    ~ In k (map slot l) ->
    fold_left (fun m x => <[slot x := stored x]> m) l m !! k = m !! k.
Proof.
  induction l as [|x l IH]; intros m k Hk; [reflexivity|].
  cbn [fold_left]. rewrite IH.
  - apply lookup_insert_ne. intros Heq. apply Hk. left. exact Heq.
  - intros Hin. apply Hk. right. exact Hin.
Qed.



Lemma completed_accepted (w : World) (plan : list (UploadRequest * string))
    (x : UploadRequest * string) :
  In x (completed w plan) -> In x plan /\ s3_fault w (fst x) = None.
Proof.
  induction plan as [|[r bytes] rest IH]; simpl; [tauto|].
  destruct (s3_fault w r) eqn:Hr; [intros []|].
  intros [<-|Hin]; [split; [left; reflexivity | exact Hr]|].
  destruct (IH Hin) as [H1 H2]. split; [right; exact H1 | exact H2].
Qed.



(** ** The log *)



(** ** The order of the requests *)

Lemma no_fault_everywhere (w : World) (plan : list (UploadRequest * string)) :
  first_fault w plan = None ->
  Forall (fun r => s3_fault w r = None) (map fst plan).
Proof.
  induction plan as [|[r bytes] rest IH]; simpl; [constructor|].
  destruct (s3_fault w r) eqn:Hr; [discriminate|].
  intros H. constructor; [exact Hr | apply IH, H].
Qed.

(** X1.  The requests of a publish run are uploads followed by at most
    one invalidation: nothing is uploaded after the invalidation was
    requested, and an invalidation is requested only when every regular
    file of the output root was uploaded and accepted. *)
Theorem publish_call_order (w : World) (st : State) :
  exists ups invs,
    sent_by (main w) st = map UploadFile ups ++ map CreateInvalidation invs /\
    length invs <= 1 /\
    (invs <> [] ->
     ups = map fst (plan_of w) /\ Forall (fun r => s3_fault w r = None) ups).
Proof.
  destruct (configured w) eqn:Hcfg.
  - rewrite (main_sent _ _ Hcfg).
    destruct (first_fault w (plan_of w)) as [[r e]|] eqn:Hfault.
    + exists (attempted w (plan_of w)), []. split; [reflexivity|].
      split; [simpl; lia | congruence].
    + exists (attempted w (plan_of w)), (invalidation_of w st).
      split; [reflexivity|]. split.
      * unfold invalidation_of, invalidation_for.
        destruct (distribution_of w) as [id|]; [|simpl; lia].
        destruct (Py.truthy id); simpl; lia.
      * intros _. rewrite (attempted_no_fault _ _ Hfault).
        split; [reflexivity | apply no_fault_everywhere, Hfault].
  - rewrite (main_sent_not_configured _ _ Hcfg). exists [], [].
    split; [reflexivity|]. split; [simpl; lia | congruence].
Qed.

(** X5.  An output root without regular files (empty, or holding only
    directories) is published without any upload: the run goes straight
    to the invalidation step, ends as that step ends, and leaves the
    store as it was. *)
Theorem publish_nothing_to_upload (w : World) (st : State) :
  configured w = true ->
  regular_files (rglob (dist w)) = [] ->
  sent_by (main w) st = map CreateInvalidation (invalidation_of w st) /\
  fst (main w st) = invalidation_result w (invalidation_of w st) /\
  store (snd (main w st)) = store st.
Proof.
  intros Hcfg Hempty.
  assert (plan_of w = []) as Hplan.
  { unfold plan_of, planned. rewrite Hempty. reflexivity. }
  destruct (main_run w st Hcfg) as (_ & Hstore & _ & Hres).
  rewrite (main_sent _ _ Hcfg). rewrite Hplan in *. simpl in *.
  split; [reflexivity|]. split; [exact Hres|].
  rewrite Hstore. unfold upload_directory_to_s3.
  destruct (upload_paths_effects w (bucket_of w) (prefix_of w) (rglob (dist w)) st)
    as [_ Hfold].
  rewrite Hfold. unfold planned. rewrite Hempty. reflexivity.
Qed.

(** The output root that holds directories only. *)
Lemma publish_nothing_to_upload_witness :
  sent_by (main SamplesMore.calm_hollow) initial =
    [ CreateInvalidation
        {| DistributionId := "E2EXAMPLE"; Quantity := 1; Items := ["/*"];
           CallerReference := "endodoncia-0001020304050607" |} ] /\
  fst (main SamplesMore.calm_hollow initial) = Ok tt.
Proof.
  destruct (publish_nothing_to_upload SamplesMore.calm_hollow initial)
    as (Hsent & Hres & _).
  - vm_compute. reflexivity.
  - vm_compute. reflexivity.
  - split; [rewrite Hsent | rewrite Hres]; vm_compute; reflexivity.
Defined.

(** ** The shape of the requests *)

(** X6.  Every invalidation a publish run requests names the configured,
    non-empty distribution, asks for the one path [/*], and carries a
    caller reference of 27 characters: ["endodoncia-"] followed by 16
    lowercase hexadecimal digits. *)
Theorem invalidation_request_shape (w : World) (st : State) (r : InvalidationRequest) :
  In r (invalidations (sent_by (main w) st)) ->
  distribution_of w = Some (DistributionId r) /\
  DistributionId r <> "" /\
  Quantity r = 1%Z /\
  Items r = ["/*"] /\
  String.length (CallerReference r) = 27 /\
  exists digits,
    CallerReference r = "endodoncia-" +:+ digits /\
    String.length digits = 16 /\
    all_chars is_lower_hex digits = true.
Proof.
  rewrite main_invalidations.
  destruct (configured w); [|intros []].
  destruct (first_fault w (plan_of w)); [intros []|].
  unfold invalidation_of, invalidation_for.
  destruct (distribution_of w) as [id|]; [|intros []].
  destruct (Py.truthy id) eqn:Hid; [|intros []].
  intros [<-|[]]. cbn [DistributionId Quantity Items CallerReference].
  assert (String.length (Py.hex (map (entropy w) (seq (drawn st) 8))) = 16) as Hlen.
  { rewrite hex_length, length_map, length_seq. reflexivity. }
  split; [reflexivity|]. split.
  { intros ->. discriminate Hid. }
  split; [reflexivity|]. split; [reflexivity|]. split.
  - unfold caller_reference. rewrite PyFacts.length_app, Hlen. reflexivity.
  - exists (Py.hex (map (entropy w) (seq (drawn st) 8))).
    split; [reflexivity|]. split; [exact Hlen | apply hex_lower].
Qed.

(** The invalidation of the calm sample run. *)
Lemma invalidation_request_shape_witness :
  String.length "endodoncia-0001020304050607" = 27.
Proof.
  apply (invalidation_request_shape Samples.calm initial
           {| DistributionId := "E2EXAMPLE"; Quantity := 1; Items := ["/*"];
              CallerReference := "endodoncia-0001020304050607" |}).
  vm_compute. left. reflexivity.
Defined.

(** X7.  Every upload of a publish run goes to the bucket that
    [AWS_S3_BUCKET] names, which is not empty, under a key that starts
    with the configured prefix, and reads a file below [dist/]. *)
Theorem uploads_target (w : World) (st : State) (r : UploadRequest) :
  In r (uploads (sent_by (main w) st)) ->
  environ w !! "AWS_S3_BUCKET" = Some (Bucket r) /\
  Bucket r <> "" /\
  String.prefix (prefix_of w) (Key r) = true /\
  String.prefix (dist_dir w +:+ sep w) (Filename r) = true.
Proof.
  intros Hin.
  assert (configured w = true) as Hcfg.
  { rewrite main_uploads in Hin. destruct (configured w); [reflexivity | destruct Hin]. }
  apply main_upload_origin in Hin as (rel & bytes & _ & ->).
  cbn [Bucket Key Filename upload_request].
  unfold configured in Hcfg. apply andb_true_iff in Hcfg as [Hbucket _].
  unfold bucket_of. destruct (environ w !! "AWS_S3_BUCKET") as [b|]; [|discriminate].
  simpl in Hbucket. simpl.
  split; [reflexivity|]. split.
  { intros ->. discriminate Hbucket. }
  split.
  - rewrite object_key_concat. apply prefix_append.
  - unfold str_under.
    replace (dist_dir w +:+ sep w +:+ String.concat (sep w) rel)
      with ((dist_dir w +:+ sep w) +:+ String.concat (sep w) rel).
    + apply prefix_append.
    + apply append_assoc_r.
Qed.

(** The upload of [app.js] in the calm sample run. *)
Lemma uploads_target_witness :
  Samples.env_full !! "AWS_S3_BUCKET" = Some "my-bucket" /\
  String.prefix "site/" "site/app.js" = true.
Proof.
  destruct (uploads_target Samples.calm initial
              (upload_request Samples.calm "my-bucket" "site/" ["app.js"]))
    as (Hbucket & _ & Hkey & _).
  - vm_compute. do 2 right. left. reflexivity.
  - split; [exact Hbucket | exact Hkey].
Defined.

(** The calm sample run: five uploads, all accepted, then the
    invalidation. *)
Lemma publish_call_order_witness :
  exists ups,
    length ups = 5 /\ Forall (fun r => s3_fault Samples.calm r = None) ups.
Proof.
  destruct (publish_call_order Samples.calm initial) as (ups & invs & Hsent & _ & Hall).
  exists ups.
  assert (invalidations (sent_by (main Samples.calm) initial) = invs) as Hinvs.
  { rewrite Hsent, invalidations_app, invalidations_of_uploads,
      invalidations_of_invalidations. reflexivity. }
  assert (invs <> []) as Hne.
  { rewrite <- Hinvs. vm_compute. discriminate. }
  destruct (Hall Hne) as [-> Hok]. split; [vm_compute; reflexivity | exact Hok].
Defined.

(** ** Which names get a content type *)

Lemma rfind_some (c : ascii) (s : string) :
  forall i,
    Py.rfind c s = Some i ->
    exists stem tail,
      s = stem +:+ String c tail /\ String.length stem = i /\ Py.rfind c tail = None.
Proof.
  induction s as [|a s IH]; intros i; simpl; [discriminate|].
  destruct (Py.rfind c s) as [j|] eqn:Hrest.
  - intros H. injection H as <-. destruct (IH j eq_refl) as (stem & tail & -> & <- & Htail).
    exists (String a stem), tail. repeat split. exact Htail.
  - destruct (Ascii.eqb a c) eqn:Hac; [|discriminate].
    intros H. injection H as <-. apply Ascii.eqb_eq in Hac as ->.
    exists "", s. repeat split. exact Hrest.
Qed.

(** The suffix of a name is empty, or it is the part from the last dot
    on, with a non-empty stem before the dot and a non-empty extension
    after it. *)
Lemma suffix_decomposition (nm : string) :
  suffix_of_name nm = "" \/
  exists stem ext,
    nm = stem +:+ String "." ext /\ stem <> "" /\ ext <> "" /\
    Py.rfind "." ext = None /\ suffix_of_name nm = String "." ext.
Proof.
  unfold suffix_of_name.
  destruct (Py.rfind "." nm) as [i|] eqn:Hfind; [|left; reflexivity].
  destruct (rfind_some _ _ _ Hfind) as (stem & ext & -> & <- & Hext).
  rewrite PyFacts.length_app. simpl.
  destruct (Nat.ltb_spec 0 (String.length stem)) as [Hstem|]; [|left; reflexivity].
  destruct (Nat.ltb_spec (String.length stem)
              (String.length stem + S (String.length ext) - 1)) as [Hlen|];
    [|left; reflexivity].
  right. exists stem, ext. simpl.
  split; [reflexivity|]. split; [intros ->; simpl in Hstem; lia|].
  split; [intros ->; simpl in Hlen; lia|].
  split; [exact Hext | apply PyFacts.drop_chars_app].
Qed.

(** X8.  Exactly the names [stem.html], [stem.css] and [stem.js] with a
    non-empty stem get a content type.  So a hidden file whose name is
    a dot and an extension ([.html], [.css], ...) is uploaded without
    one, and so is a name that ends with a dot. *)
Theorem content_type_needs_stem (rel : rel_path) :
  (extra_args rel <> ∅ ->
   exists stem ext,
     name rel = stem +:+ String "." ext /\ stem <> "" /\
     In ext ["html"; "css"; "js"]) /\
  (forall dir ext,
     Py.rfind "." ext = None -> extra_args (dir ++ [String "." ext]) = ∅) /\
  (forall dir stem, extra_args (dir ++ [stem +:+ "."]) = ∅).
Proof.
  split; [|split].
  - intros Hsome.
    destruct (extra_args_table rel) as (_ & _ & _ & Hnone).
    destruct (suffix_decomposition (name rel))
      as [Hempty|(stem & ext & Hname & Hstem & _ & _ & Hsuffix)].
    + destruct Hsome. apply Hnone; unfold suffix; rewrite Hempty; discriminate.
    + exists stem, ext. split; [exact Hname|]. split; [exact Hstem|].
      destruct (String.eqb_spec ext "html") as [->|H1]; [simpl; auto|].
      destruct (String.eqb_spec ext "css") as [->|H2]; [simpl; auto|].
      destruct (String.eqb_spec ext "js") as [->|H3]; [simpl; auto|].
      destruct Hsome. apply Hnone; unfold suffix; rewrite Hsuffix; congruence.
  - intros dir ext Hext.
    assert (suffix (dir ++ [String "." ext]) = "") as Hsuffix.
    { unfold suffix, suffix_of_name. rewrite PathFacts.name_snoc.
      simpl. rewrite Hext. reflexivity. }
    apply extra_args_table; rewrite Hsuffix; discriminate.
  - intros dir stem.
    assert (suffix (dir ++ [stem +:+ "."]) = "") as Hsuffix.
    { unfold suffix, suffix_of_name. rewrite PathFacts.name_snoc.
      rewrite (PyFacts.rfind_app "." stem "" eq_refl), PyFacts.length_app. simpl.
      destruct (Nat.ltb_spec (String.length stem) (String.length stem + 1 - 1));
        [lia|]. rewrite andb_false_r. reflexivity. }
    apply extra_args_table; rewrite Hsuffix; discriminate.
Qed.

(** [app.min.js] gets a content type, and its stem is [app.min]; the
    hidden file [.html] gets none. *)
Lemma content_type_needs_stem_witness :
  (exists stem ext,
     "app.min.js" = stem +:+ String "." ext /\ stem <> "" /\
     In ext ["html"; "css"; "js"]) /\
  extra_args ([] ++ [".html"]) = ∅.
Proof.
  split.
  - apply (content_type_needs_stem ["app.min.js"]). vm_compute. discriminate.
  - apply (content_type_needs_stem []). reflexivity.
Defined.

(** ** Publishing twice *)

(** What the writes of a list of uploads leave under a slot they write
    does not depend on what was there. *)
Lemma fold_insert_written (l : list (UploadRequest * string)) :
  forall (m m' : gmap (string * string) S3Object) k,
    In k (map slot l) ->
    fold_left (fun m x => <[slot x := stored x]> m) l m !! k =
    fold_left (fun m x => <[slot x := stored x]> m) l m' !! k.
Proof.
  induction l as [|x l IH]; intros m m' k Hk; [destruct Hk|].
  cbn [fold_left]. destruct (decide (k ∈ map slot l)) as [Hin|Hout];
    rewrite list_elem_of_In in *.
  - apply IH, Hin.
  - rewrite !fold_insert_other by exact Hout.
    destruct Hk as [<-|Hk]; [|contradiction].
    rewrite !lookup_insert_eq. reflexivity.
Qed.

Lemma fold_insert_idempotent (l : list (UploadRequest * string))
    (m : gmap (string * string) S3Object) :
  fold_left (fun m x => <[slot x := stored x]> m) l
    (fold_left (fun m x => <[slot x := stored x]> m) l m) =
  fold_left (fun m x => <[slot x := stored x]> m) l m.
Proof.
  apply map_eq. intros k.
  destruct (decide (k ∈ map slot l)) as [Hin|Hout]; rewrite list_elem_of_In in *.
  - apply fold_insert_written, Hin.
  - rewrite fold_insert_other by exact Hout. reflexivity.
Qed.

(** X19.  Publishing is idempotent on the bucket: a second publish run
    over the same output root, against a store that answers the same
    way, sends the same uploads and leaves the store exactly as the
    first run left it (uploads overwrite by key), whether or not the
    runs were configured, met a refusal, or failed to invalidate. *)
Theorem publish_idempotent (w : World) (st : State) :
  store (snd (main w (snd (main w st)))) = store (snd (main w st)) /\
  uploads (sent_by (main w) (snd (main w st))) = uploads (sent_by (main w) st).
Proof.
  split; [|rewrite !main_uploads; reflexivity].
  destruct (configured w) eqn:Hcfg.
  - assert (forall s,
              store (snd (main w s)) =
              fold_left (fun m x => <[slot x := stored x]> m)
                (completed w (plan_of w)) (store s)) as Hstore.
    { intros s. destruct (main_run w s Hcfg) as (_ & -> & _).
      unfold upload_directory_to_s3.
      apply (upload_paths_effects w (bucket_of w) (prefix_of w) (rglob (dist w)) s). }
    rewrite (Hstore (snd (main w st))), (Hstore st). apply fold_insert_idempotent.
  - rewrite !(main_not_configured _ _ Hcfg). reflexivity.
Qed.

End DeployExtra.


(* ===================================================================== *)
(** * build.py: further properties *)
(* ===================================================================== *)

Module BuildExtra.
Import Pathlib Build BuildFacts BuildMore.

(** ** Reading files of a tree *)

Lemma file_at_none (p : rel_path) : file_at p None = None.
Proof. destruct p; reflexivity. Qed.

Lemma file_at_below_file (p : rel_path) (bytes : string) :
  p <> [] -> file_at p (Some (File bytes)) = None.
Proof. destruct p; [congruence | reflexivity]. Qed.

Lemma file_at_cons (d : string) (rest : rel_path) (entries : list (string * node)) :
  file_at (d :: rest) (Some (Dir entries)) = file_at rest (lookup_entry d entries).
Proof. reflexivity. Qed.

Lemma lookup_set_entry_eq (d : string) (c : node) (entries : list (string * node)) :
  lookup_entry d (set_entry d c entries) = Some c.
Proof.
  induction entries as [|[n old] rest IH]; simpl.
  - rewrite String.eqb_refl. reflexivity.
  - destruct (String.eqb n d) eqn:Hn; simpl; rewrite Hn; [reflexivity | exact IH].
Qed.

Lemma lookup_set_entry_ne (d d' : string) (c : node) (entries : list (string * node)) :
  d' <> d -> lookup_entry d' (set_entry d c entries) = lookup_entry d' entries.
Proof.
  intros Hne. induction entries as [|[n old] rest IH]; simpl.
  - destruct (String.eqb_spec d d'); [congruence | reflexivity].
  - destruct (String.eqb_spec n d) as [->|Hn]; simpl.
    + destruct (String.eqb_spec d d'); [congruence | reflexivity].
    + destruct (String.eqb n d'); [reflexivity | exact IH].
Qed.

(** A file read from a tree is one of the files the tree lists. *)
Lemma file_at_in_files (p : rel_path) :
  forall n bytes, file_at p (Some n) = Some bytes -> In (p, bytes) (tree_files n).
Proof.
  induction p as [|d rest IH]; intros n bytes.
  - destruct n as [b|entries]; [|discriminate].
    intros H. injection H as ->. left. reflexivity.
  - destruct n as [b|entries]; [discriminate|].
    rewrite file_at_cons.
    destruct (lookup_entry d entries) as [c|] eqn:Hlook;
      [|rewrite file_at_none; discriminate].
    intros H. apply in_tree_files_dir. exists d, c, rest.
    split; [apply lookup_entry_in, Hlook|]. split; [reflexivity | apply IH, H].
Qed.

(** [mkdir] changes no file. *)
Lemma mkdir_parents_file_at (rel : rel_path) :
  forall here n,
    mkdir_parents rel here = inr n ->
    forall p, file_at p (Some n) = file_at p here.
Proof.
  induction rel as [|d rest IH]; intros here n.
  - destruct here as [[bytes|entries]|]; simpl; intros H; try discriminate;
      injection H as <-; intros p; [reflexivity|].
    destruct p as [|d' p]; [reflexivity|].
    rewrite file_at_cons. simpl. rewrite !file_at_none. reflexivity.
  - destruct here as [[bytes|entries]|]; simpl; [discriminate | |].
    + destruct (mkdir_parents rest (lookup_entry d entries)) as [e|c] eqn:Hsub;
        [discriminate|].
      intros H. injection H as <-. intros [|d' p]; [reflexivity|].
      rewrite !file_at_cons. destruct (String.eqb_spec d' d) as [->|Hne].
      * rewrite lookup_set_entry_eq. apply (IH _ _ Hsub).
      * rewrite (lookup_set_entry_ne _ _ _ _ Hne). reflexivity.
    + destruct (mkdir_parents rest None) as [e|c] eqn:Hsub; [discriminate|].
      intros H. injection H as <-. intros [|d' p]; [reflexivity|].
      rewrite file_at_cons, file_at_none. simpl.
      destruct (String.eqb d d'); [|apply file_at_none].
      rewrite (IH _ _ Hsub). apply file_at_none.
Qed.

(** [write_text] puts the text at its path and changes no other file. *)
Lemma write_text_file_at (rel : rel_path) (text : string) :
  forall here n,
    write_text rel text here = inr n ->
    file_at rel (Some n) = Some text /\
    forall p, p <> rel -> file_at p (Some n) = file_at p here.
Proof.
  induction rel as [|d rest IH]; intros here n.
  - simpl. intros H.
    assert (n = File text /\ (here = None \/ exists b, here = Some (File b)))
      as [-> Hhere].
    { destruct here as [[bytes|entries]|]; try discriminate;
        injection H as <-; split; eauto. }
    split; [reflexivity|]. intros p Hp. rewrite (file_at_below_file p text Hp).
    destruct Hhere as [->|[b ->]];
      [rewrite file_at_none | rewrite (file_at_below_file p b Hp)]; reflexivity.
  - simpl. destruct here as [[bytes|entries]|]; try discriminate.
    destruct (write_text rest text (lookup_entry d entries)) as [e|c] eqn:Hsub;
      [discriminate|].
    intros H. injection H as <-. destruct (IH _ _ Hsub) as [Hat Hother].
    split.
    + rewrite file_at_cons, lookup_set_entry_eq. exact Hat.
    + intros [|d' p] Hp; [reflexivity|].
      rewrite !file_at_cons. destruct (String.eqb_spec d' d) as [->|Hne].
      * rewrite lookup_set_entry_eq. apply Hother. congruence.
      * rewrite (lookup_set_entry_ne _ _ _ _ Hne). reflexivity.
Qed.

(** [copytree] puts the files of the source below its destination and
    changes no file elsewhere. *)
Lemma place_tree_file_at (rel : rel_path) (src : node) :
  forall here n,
    place_tree rel src here = inr n ->
    (forall q, file_at (rel ++ q) (Some n) = file_at q (Some src)) /\
    forall p, (forall q, p <> rel ++ q) -> file_at p (Some n) = file_at p here.
Proof.
  induction rel as [|d rest IH]; intros here n.
  - simpl. destruct here as [c|]; [discriminate|].
    intros H. injection H as <-. split; [reflexivity|].
    intros p Hp. destruct (Hp p). reflexivity.
  - simpl. destruct here as [[bytes|entries]|]; [discriminate | |].
    + destruct (place_tree rest src (lookup_entry d entries)) as [e|c] eqn:Hsub;
        [discriminate|].
      intros H. injection H as <-. destruct (IH _ _ Hsub) as [Hbelow Hother].
      split.
      * intros q. rewrite file_at_cons, lookup_set_entry_eq. apply Hbelow.
      * intros [|d' p] Hp; [reflexivity|].
        rewrite !file_at_cons. destruct (String.eqb_spec d' d) as [->|Hne].
        -- rewrite lookup_set_entry_eq. apply Hother.
           intros q Hq. apply (Hp q). rewrite Hq. reflexivity.
        -- rewrite (lookup_set_entry_ne _ _ _ _ Hne). reflexivity.
    + destruct (place_tree rest src None) as [e|c] eqn:Hsub; [discriminate|].
      intros H. injection H as <-. destruct (IH _ _ Hsub) as [Hbelow Hother].
      split.
      * intros q. simpl. rewrite file_at_cons. simpl. rewrite String.eqb_refl.
        apply Hbelow.
      * intros [|d' p] Hp; [reflexivity|].
        rewrite file_at_cons, file_at_none. simpl.
        destruct (String.eqb_spec d d') as [<-|Hne]; [|apply file_at_none].
        rewrite Hother; [apply file_at_none|].
        intros q Hq. apply (Hp q). rewrite Hq. reflexivity.
Qed.

(** ** The steps, one by one *)

Lemma on_dist_ok (f : option node -> exn + node) (st st' : State) :
  on_dist f st = (Ok tt, st') ->
  exists n, f (dist st) = inr n /\ st' = {| dist := Some n; stdout := stdout st |}.
Proof.
  unfold on_dist. destruct (f (dist st)) as [e|n]; [discriminate|].
  intros H. injection H as <-. eauto.
Qed.

Lemma on_dist_stdout (f : option node -> exn + node) (st : State) :
  stdout (snd (on_dist f st)) = stdout st.
Proof. unfold on_dist. destruct (f (dist st)); reflexivity. Qed.

Lemma clean_dist_stdout (st : State) : stdout (snd (clean_dist st)) = stdout st.
Proof. rewrite clean_dist_run. destruct (is_file (dist st)); reflexivity. Qed.

Lemma copy_assets_stdout (w : World) (st : State) :
  stdout (snd (copy_assets w st)) = stdout st.
Proof.
  unfold copy_assets. destruct (exists_ (assets w)); [apply on_dist_stdout | reflexivity].
Qed.

Lemma render_one_stdout (w : World) (context : gmap string value)
    (pair : string * string) (st : State) :
  stdout (snd (render_one w context pair st)) = stdout st.
Proof.
  unfold render_one, bind, lift, ret, raise.
  destruct (get_template w (fst pair)) as [e|tpl]; [reflexivity|].
  destruct (tpl context) as [e|html]; [reflexivity|].
  pose proof (on_dist_stdout (mkdir_parents (removelast (split_slash (snd pair)))) st)
    as Hmk.
  destruct (on_dist (mkdir_parents (removelast (split_slash (snd pair)))) st)
    as [[[]|e] st1]; [|exact Hmk].
  rewrite on_dist_stdout. exact Hmk.
Qed.

Lemma render_all_stdout (w : World) (context : gmap string value)
    (pairs : list (string * string)) :
  forall st, stdout (snd (render_all w context pairs st)) = stdout st.
Proof.
  induction pairs as [|pair rest IH]; intros st; [reflexivity|].
  unfold render_all. cbn [for_each]. unfold bind.
  pose proof (render_one_stdout w context pair st) as Hone.
  destruct (render_one w context pair st) as [[[]|e] st1]; [|exact Hone].
  fold (render_all w context rest st1). rewrite IH. exact Hone.
Qed.

(** X9.  The build announces itself exactly when it succeeded: a run
    that ends normally prints the single line [Build complete: <dist>]
    after everything else is done, and a run that raises, at whatever
    step, prints nothing. *)
Theorem build_log (w : World) (st : State) :
  stdout (snd (build w st)) =
    stdout st ++
    match fst (build w st) with
    | Ok _ => ["Build complete: " +:+ dist_dir w]
    | Raise _ => []
    end.
Proof.
  rewrite build_is_build_with. unfold build_with, bind.
  pose proof (clean_dist_stdout st) as Hclean.
  destruct (clean_dist st) as [[[]|e] st1];
    [|cbn [fst snd] in *; rewrite Hclean, app_nil_r; reflexivity].
  pose proof (copy_assets_stdout w st1) as Hcopy.
  destruct (copy_assets w st1) as [[[]|e] st2];
    [|cbn [fst snd] in *; rewrite Hcopy, Hclean, app_nil_r; reflexivity].
  pose proof (render_all_stdout w get_site_context templates st2) as Hrender.
  destruct (render_all w get_site_context templates st2) as [[[]|e] st3];
    cbn [fst snd] in *.
  - unfold print. cbn [fst snd stdout]. rewrite Hrender, Hcopy, Hclean. reflexivity.
  - rewrite Hrender, Hcopy, Hclean, app_nil_r. reflexivity.
Qed.

(** One pass of the rendering loop that ends normally: the template was
    loaded and rendered, its markup is the file at the output path, and
    no other file changed. *)
Lemma render_one_ok (w : World) (context : gmap string value)
    (pair : string * string) (st st' : State) :
  render_one w context pair st = (Ok tt, st') ->
  exists tpl html,
    get_template w (fst pair) = inr tpl /\ tpl context = inr html /\
    file_at (split_slash (snd pair)) (dist st') = Some html /\
    forall p, p <> split_slash (snd pair) -> file_at p (dist st') = file_at p (dist st).
Proof.
  unfold render_one, bind, lift, ret, raise.
  destruct (get_template w (fst pair)) as [e|tpl] eqn:Htpl; [discriminate|].
  destruct (tpl context) as [e|html] eqn:Hhtml; [discriminate|].
  destruct (on_dist (mkdir_parents (removelast (split_slash (snd pair)))) st)
    as [[[]|e] st1] eqn:Hmk; [|discriminate].
  apply on_dist_ok in Hmk as (n1 & Hmk & ->).
  intros Hwr. apply on_dist_ok in Hwr as (n2 & Hwr & ->). cbn [dist] in *.
  destruct (write_text_file_at _ _ _ _ Hwr) as [Hat Hother].
  exists tpl, html. split; [reflexivity|]. split; [exact Hhtml|]. split; [exact Hat|].
  intros p Hp. rewrite (Hother p Hp). apply (mkdir_parents_file_at _ _ _ Hmk).
Qed.

Lemma render_all_ok (w : World) (context : gmap string value)
    (pairs : list (string * string)) :
  forall st st',
    render_all w context pairs st = (Ok tt, st') ->
    NoDup (outputs pairs) ->
    (forall pair, In pair pairs ->
       exists tpl html,
         get_template w (fst pair) = inr tpl /\ tpl context = inr html /\
         file_at (split_slash (snd pair)) (dist st') = Some html) /\
    (forall p, ~ In p (outputs pairs) -> file_at p (dist st') = file_at p (dist st)).
Proof.
  induction pairs as [|pair rest IH]; intros st st' Hrun Hnodup.
  - injection Hrun as <-. split; [intros pair [] | reflexivity].
  - unfold render_all in Hrun. cbn [for_each] in Hrun. unfold bind in Hrun.
    destruct (render_one w context pair st) as [[[]|e] st1] eqn:Hone; [|discriminate].
    fold (render_all w context rest st1) in Hrun.
    cbn [outputs map] in Hnodup. apply NoDup_cons in Hnodup as [Hfresh Hnodup].
    destruct (IH _ _ Hrun Hnodup) as [Hrest Hframe].
    destruct (render_one_ok _ _ _ _ _ Hone) as (tpl & html & Htpl & Hhtml & Hat & Hother).
    split.
    + intros x [<-|Hin]; [|apply Hrest, Hin].
      exists tpl, html. repeat split; try assumption.
      rewrite Hframe; [exact Hat|].
      intros H. apply Hfresh. apply list_elem_of_In. exact H.
    + intros p Hp. rewrite Hframe.
      * apply Hother. intros ->. apply Hp. left. reflexivity.
      * intros H. apply Hp. right. exact H.
Qed.

Lemma lookup_entry_singleton (n : string) (c : node) (d : string) :
  lookup_entry d [(n, c)] = if String.eqb n d then Some c else None.
Proof. reflexivity. Qed.

(** [copy_assets] on an empty output root: below [assets/] exactly the
    files of the assets tree, and no file elsewhere. *)
Lemma copy_assets_fresh (w : World) (out : list string) (st' : State) :
  copy_assets w {| dist := Some (Dir []); stdout := out |} = (Ok tt, st') ->
  (forall q, file_at ("assets" :: q) (dist st') = file_at q (assets w)) /\
  (forall p, (forall q, p <> "assets" :: q) -> file_at p (dist st') = None).
Proof.
  unfold copy_assets.
  destruct (assets w) as [[bytes|entries]|] eqn:Hassets; simpl.
  - discriminate.
  - intros H. injection H as <-. cbn [dist]. split.
    + intros q. rewrite file_at_cons. simpl. reflexivity.
    + intros [|d p] Hp; [reflexivity|].
      rewrite file_at_cons, lookup_entry_singleton.
      destruct (String.eqb_spec "assets" d) as [<-|Hne]; [|apply file_at_none].
      destruct (Hp p). reflexivity.
  - intros H. injection H as <-. cbn [dist]. split.
    + intros q. rewrite file_at_cons, !file_at_none. reflexivity.
    + intros [|d p] _; [reflexivity|]. rewrite file_at_cons. apply file_at_none.
Qed.

(** The output paths of the mapping are pairwise different, and none is
    below [assets/]. *)
Lemma outputs_distinct : NoDup (outputs templates).
Proof. apply (bool_decide_unpack _). vm_compute. reflexivity. Qed.

Lemma outputs_not_assets (p : rel_path) :
  In p (outputs templates) -> forall q, p <> "assets" :: q.
Proof.
  intros Hin q ->. vm_compute in Hin.
  repeat (destruct Hin as [Hin|Hin]; [discriminate Hin|]). exact Hin.
Qed.

Lemma run_with_ok_fresh (w : World) (context : gmap string value)
    (previous : option node) (st' : State) :
  run_with w context previous = (Ok tt, st') ->
  fill_dist w context {| dist := Some (Dir []); stdout := [] |} = (Ok tt, st').
Proof.
  unfold run_with. rewrite build_with_run. cbn [dist stdout].
  destruct (is_file previous); [discriminate | tauto].
Qed.

Lemma file_at_output (st : State) (p : rel_path) (bytes : string) :
  (exists entries, dist st = Some (Dir entries)) ->
  file_at p (dist st) = Some bytes ->
  In (p, bytes) (output_files st).
Proof.
  intros [entries Hdir] Hat. unfold output_files. rewrite Hdir in *.
  apply PathFacts.in_regular_files. apply files_at_dir_rglob.
  apply file_at_in_files, Hat.
Qed.

(** A run that ends normally: its steps, one after the other. *)
Lemma run_with_ok_steps (w : World) (context : gmap string value)
    (previous : option node) (st' : State) :
  run_with w context previous = (Ok tt, st') ->
  exists st1 st2,
    copy_assets w {| dist := Some (Dir []); stdout := [] |} = (Ok tt, st1) /\
    render_all w context templates st1 = (Ok tt, st2) /\
    dist st' = dist st2 /\
    exists entries, dist st' = Some (Dir entries).
Proof.
  intros Hrun. pose proof (run_with_ok_fresh _ _ _ _ Hrun) as Hfill.
  pose proof (fill_dist_produced w context []) as [Hdir _]. rewrite Hfill in Hdir.
  unfold fill_dist, bind in Hfill.
  destruct (copy_assets w {| dist := Some (Dir []); stdout := [] |})
    as [[[]|e] st1] eqn:Hcopy; [|discriminate].
  destruct (render_all w context templates st1) as [[[]|e] st2] eqn:Hrender;
    [|discriminate].
  injection Hfill as <-. exists st1, st2.
  split; [reflexivity|]. split; [exact Hrender|]. split; [reflexivity | exact Hdir].
Qed.

(** The pages of a build that ends normally. *)
Lemma built_pages (w : World) (context : gmap string value)
    (previous : option node) (st' : State) :
  run_with w context previous = (Ok tt, st') ->
  (exists entries, dist st' = Some (Dir entries)) /\
  forall name out, In (name, out) templates ->
    exists tpl html,
      get_template w name = inr tpl /\ tpl context = inr html /\
      file_at (split_slash out) (dist st') = Some html.
Proof.
  intros Hrun.
  destruct (run_with_ok_steps _ _ _ _ Hrun) as (st1 & st2 & _ & Hrender & Hsame & Hdir).
  destruct (render_all_ok _ _ _ _ _ Hrender outputs_distinct) as [Hpages _].
  split; [exact Hdir|]. intros name out Hin.
  destruct (Hpages (name, out) Hin) as (tpl & html & Htpl & Hhtml & Hat).
  cbn [fst snd] in *. rewrite <- Hsame in Hat. eauto.
Qed.

(** X10.  A build that ends normally has produced everything: for every
    template of the mapping, the template was loaded and rendered and
    its markup is the file at the output path; and reading a path below
    [assets/] in the output root gives exactly what reading that path in
    the assets tree gives (nothing, when there is no assets tree). *)
Theorem build_complete (w : World) (context : gmap string value)
    (previous : option node) (st' : State) :
  run_with w context previous = (Ok tt, st') ->
  (forall name out, In (name, out) templates ->
     exists tpl html,
       get_template w name = inr tpl /\ tpl context = inr html /\
       file_at (split_slash out) (dist st') = Some html /\
       In (split_slash out, html) (output_files st')) /\
  (forall q, file_at ("assets" :: q) (dist st') = file_at q (assets w)) /\
  (forall q bytes,
     file_at q (assets w) = Some bytes ->
     In ("assets" :: q, bytes) (output_files st')).
Proof.
  intros Hrun.
  destruct (run_with_ok_steps _ _ _ _ Hrun) as (st1 & st2 & Hcopy & Hrender & Hsame & Hdir).
  destruct (copy_assets_fresh _ _ _ Hcopy) as [Hassets _].
  destruct (render_all_ok _ _ _ _ _ Hrender outputs_distinct) as [Hpages Hframe].
  assert (forall q, file_at ("assets" :: q) (dist st') = file_at q (assets w)) as Hcopied.
  { intros q. rewrite Hsame, Hframe; [apply Hassets|].
    intros Hin. apply (outputs_not_assets _ Hin q). reflexivity. }
  split; [|split; [exact Hcopied|]].
  - intros name out Hin.
    destruct (Hpages (name, out) Hin) as (tpl & html & Htpl & Hhtml & Hat).
    cbn [fst snd] in *. rewrite <- Hsame in Hat.
    exists tpl, html. repeat split; try assumption.
    apply file_at_output; assumption.
  - intros q bytes Hq. apply file_at_output; [exact Hdir|].
    rewrite Hcopied. exact Hq.
Qed.

(** The sample build over the stale output root: the contact page and
    the style sheet are there. *)
Lemma build_complete_witness :
  (exists tpl html,
     Build.get_template (Samples.build_world true) "contact-form.html" = inr tpl /\
     tpl get_site_context = inr html /\
     file_at (split_slash "contacto/index.html")
       (dist (snd (run_with (Samples.build_world true) get_site_context
                     (Some Samples.stale_dist)))) = Some html /\
     In (split_slash "contacto/index.html", html)
       (output_files (snd (run_with (Samples.build_world true) get_site_context
                             (Some Samples.stale_dist))))) /\
  In (["assets"; "css"; "site.css"], "body{}")
    (output_files (snd (run_with (Samples.build_world true) get_site_context
                          (Some Samples.stale_dist)))).
Proof.
  destruct (build_complete (Samples.build_world true) get_site_context
              (Some Samples.stale_dist)
              (snd (run_with (Samples.build_world true) get_site_context
                      (Some Samples.stale_dist))))
    as (Hpages & _ & Hassets).
  - vm_compute. reflexivity.
  - split.
    + apply (Hpages "contact-form.html" "contacto/index.html").
      vm_compute. do 6 right. left. reflexivity.
    + apply (Hassets ["css"; "site.css"] "body{}"). reflexivity.
Defined.

(** ** A template that fails *)

Lemma render_all_stops (w : World) (context : gmap string value)
    (mapping : list (string * string)) (name out : string)
    (after : list (string * string)) (before : list (string * string)) :
  template_fails w context name ->
  forall st,
    (forall pair, In pair before -> In pair mapping) ->
    only_produced w context mapping st ->
    (exists e, fst (render_all w context (before ++ (name, out) :: after) st) = Raise e) /\
    only_produced w context mapping
      (snd (render_all w context (before ++ (name, out) :: after) st)).
Proof.
  intros Hfails. induction before as [|pair rest IH]; intros st Hsub Hst.
  - unfold render_all. cbn [app for_each].
    unfold bind at 1. unfold render_one, bind, lift, raise, ret. cbn [fst snd].
    destruct Hfails as [[e He]|(tpl & e & Htpl & He)].
    + rewrite He. split; [eauto | exact Hst].
    + rewrite Htpl. cbv beta iota. rewrite He. split; [eauto | exact Hst].
  - unfold render_all. cbn [app for_each]. unfold bind.
    pose proof (render_one_keeps w context mapping pair st
                  (Hsub pair (or_introl eq_refl)) Hst) as Hone.
    destruct (render_one w context pair st) as [[[]|e] st1]; [|split; [eauto | exact Hone]].
    apply IH; [|exact Hone]. intros p Hp. apply Hsub. right. exact Hp.
Qed.

(** X11.  A template that cannot be loaded or rendered makes the build
    fail without its announcement, and the output root then holds only
    copied assets and pages of templates that come before it in the
    mapping: no page exists for the failing template or for any later
    one. *)
Theorem build_stops_at_failing_template (w : World) (context : gmap string value)
    (previous : option node) (before after : list (string * string))
    (name out : string) :
  templates = before ++ (name, out) :: after ->
  template_fails w context name ->
  is_file previous = false ->
  (exists e, fst (run_with w context previous) = Raise e) /\
  stdout (snd (run_with w context previous)) = [] /\
  (forall rel bytes,
     In (rel, bytes) (output_files (snd (run_with w context previous))) ->
     from_assets w rel bytes \/ from_template w context before rel bytes) /\
  (forall pair bytes,
     In pair ((name, out) :: after) ->
     ~ In (split_slash (snd pair), bytes)
         (output_files (snd (run_with w context previous)))).
Proof.
  intros Hsplit Hfails Hprev.
  assert ((exists e, fst (run_with w context previous) = Raise e) /\
          stdout (snd (run_with w context previous)) = [] /\
          only_produced w context before (snd (run_with w context previous)))
    as (Hraise & Hout & Hdir & Hfiles).
  { unfold run_with. rewrite build_with_run. cbn [dist stdout]. rewrite Hprev.
    assert (only_produced w context before {| dist := Some (Dir []); stdout := [] |})
      as Hstart.
    { split; [eauto|]. intros rel bytes []. }
    unfold fill_dist, bind.
    pose proof (copy_assets_keeps w context before _ Hstart) as Hcopy.
    pose proof (copy_assets_stdout w {| dist := Some (Dir []); stdout := [] |}) as Hout1.
    destruct (copy_assets w {| dist := Some (Dir []); stdout := [] |})
      as [[[]|e] st1]; [|split; [eauto | split; [exact Hout1 | exact Hcopy]]].
    rewrite Hsplit.
    destruct (render_all_stops w context before name out after before Hfails st1
                (fun _ H => H) Hcopy) as [[e He] Hkept].
    pose proof (render_all_stdout w context (before ++ (name, out) :: after) st1) as Hout2.
    destruct (render_all w context (before ++ (name, out) :: after) st1) as [res st2].
    cbn [fst snd] in *. subst res. cbn [fst snd].
    split; [eauto|]. split; [rewrite Hout2; exact Hout1 | exact Hkept]. }
  split; [exact Hraise|]. split; [exact Hout|].
  assert (forall rel bytes,
            In (rel, bytes) (output_files (snd (run_with w context previous))) ->
            from_assets w rel bytes \/ from_template w context before rel bytes) as Honly.
  { intros rel bytes Hin. apply Hfiles. apply regular_files_rglob. exact Hin. }
  split; [exact Honly|].
  intros pair bytes Hpair Hin.
  pose proof outputs_distinct as Hnodup. unfold outputs in Hnodup.
  rewrite Hsplit, map_app in Hnodup.
  assert (In (split_slash (snd pair)) (outputs templates)) as Hout_in.
  { unfold outputs. rewrite Hsplit, map_app. apply in_app_iff. right.
    apply (in_map (fun x => split_slash (snd x))). exact Hpair. }
  destruct (Honly _ _ Hin) as [(q & Hq & _)|(name' & out' & tpl & Hin' & Heq & _)].
  - apply (outputs_not_assets _ Hout_in q Hq).
  - apply NoDup_app in Hnodup as (_ & Hdisjoint & _).
    apply (Hdisjoint (split_slash out')).
    + apply list_elem_of_In. apply (in_map (fun x => split_slash (snd x)) _ _ Hin').
    + apply list_elem_of_In. rewrite <- Heq.
      apply (in_map (fun x => split_slash (snd x))). exact Hpair.
Qed.

(** The sample build without its contact template: it fails, and
    [contacto/index.html] does not exist. *)
Lemma build_stops_at_failing_template_witness :
  (exists e,
     fst (run_with (Samples.build_world false) get_site_context None) = Raise e) /\
  ~ In (["contacto"; "index.html"], "")
      (output_files (snd (run_with (Samples.build_world false) get_site_context None))).
Proof.
  destruct (build_stops_at_failing_template (Samples.build_world false)
              get_site_context None
              (removelast templates) [] "contact-form.html" "contacto/index.html")
    as (Hraise & _ & _ & Habsent).
  - reflexivity.
  - left. eexists. reflexivity.
  - reflexivity.
  - split; [exact Hraise|].
    apply (Habsent ("contact-form.html", "contacto/index.html") "").
    left. reflexivity.
Defined.

(** ** The context and the pages *)

(** X12.  The services of the site context and the pages agree: after a
    build that ends normally, every service listed under ["services"]
    in the context has its page, the file [<slug>/index.html] of the
    output root, for the slug the service carries. *)
Theorem services_have_pages (w : World) (previous : option node) (st' : State) :
  run w previous = (Ok tt, st') ->
  forall items svc slug,
    get_site_context !! "services" = Some (Entries items) ->
    In svc items ->
    svc !! "slug" = Some slug ->
    exists html,
      file_at [slug; "index.html"] (dist st') = Some html /\
      In ([slug; "index.html"], html) (output_files st').
Proof.
  intros Hrun items svc slug Hitems Hsvc Hslug.
  destruct (built_pages w get_site_context previous st' Hrun) as (Hdir & Hpages).
  assert (exists name, In (name, slug +:+ "/index.html") templates /\
                       split_slash (slug +:+ "/index.html") = [slug; "index.html"])
    as (name & Hin & Hpath).
  { vm_compute in Hitems. injection Hitems as <-.
    repeat (destruct Hsvc as [<-|Hsvc];
            [vm_compute in Hslug; injection Hslug as <-; eexists; split;
             [vm_compute; eauto 10 | reflexivity]|]).
    destruct Hsvc. }
  destruct (Hpages _ _ Hin) as (tpl & html & _ & _ & Hat).
  rewrite Hpath in Hat. exists html. split; [exact Hat|].
  apply file_at_output; assumption.
Qed.

(** The service "Trauma Dental" and its page, after the sample build. *)
Lemma services_have_pages_witness :
  exists html,
    file_at ["dental-trauma"; "index.html"]
      (dist (snd (run (Samples.build_world true) None))) = Some html /\
    In (["dental-trauma"; "index.html"], html)
      (output_files (snd (run (Samples.build_world true) None))).
Proof.
  apply (services_have_pages (Samples.build_world true) None
           (snd (run (Samples.build_world true) None)))
    with (items := [ service "Tratamiento de Conductos" "root-canal-treatment";
                     service "Retratamiento de Conductos" "root-canal-retreatment";
                     service "Microcirugía Endodóntica" "endodontic-microsurgery";
                     service "Trauma Dental" "dental-trauma";
                     service "Blanqueamiento Interno" "internal-bleaching" ])
         (svc := service "Trauma Dental" "dental-trauma").
  - vm_compute. reflexivity.
  - vm_compute. reflexivity.
  - do 3 right. left. reflexivity.
  - vm_compute. reflexivity.
Defined.

(** ** Copying the assets twice *)

(** X13.  [copy_assets] cannot be repeated on the same output root:
    once it has copied an assets directory, a second call finds
    [assets/] in place and raises [FileExistsError], leaving the output
    root as it is.  ([build] calls it once, right after [clean_dist].) *)
Theorem copy_assets_not_repeatable (w : World) (st st1 : State)
    (entries : list (string * node)) :
  assets w = Some (Dir entries) ->
  copy_assets w st = (Ok tt, st1) ->
  copy_assets w st1 = (Raise (Exception "FileExistsError" "copytree"), st1).
Proof.
  intros Hassets. unfold copy_assets. rewrite Hassets. cbn [exists_ copytree].
  intros Hfirst. apply on_dist_ok in Hfirst as (n & Hplace & ->).
  unfold on_dist, copytree. cbn [dist].
  assert (exists es, n = Dir es /\ lookup_entry "assets" es = Some (Dir entries))
    as (es & -> & Hlook).
  { unfold copytree in Hplace.
    destruct (dist st) as [[bytes|es]|]; cbn [place_tree] in Hplace; [discriminate | |].
    - destruct (lookup_entry "assets" es); cbn [place_tree] in Hplace; [discriminate|].
      injection Hplace as <-. eexists. split; [reflexivity|].
      apply lookup_set_entry_eq.
    - injection Hplace as <-. eexists. split; reflexivity. }
  cbn [place_tree]. rewrite Hlook. reflexivity.
Qed.

(** The sample assets, copied into an empty output root, then again. *)
Lemma copy_assets_not_repeatable_witness :
  exists st1,
    copy_assets (Samples.build_world true) {| dist := Some (Dir []); stdout := [] |}
      = (Ok tt, st1) /\
    copy_assets (Samples.build_world true) st1
      = (Raise (Exception "FileExistsError" "copytree"), st1).
Proof.
  eexists. split; [reflexivity|].
  apply (copy_assets_not_repeatable (Samples.build_world true)
           {| dist := Some (Dir []); stdout := [] |} _
           [("css", Dir [("site.css", File "body{}")])]); reflexivity.
Defined.

End BuildExtra.


(* ===================================================================== *)
(** * serve.py: further properties *)
(* ===================================================================== *)

Module ServeExtra.
Import Serve ServeMore.

(** The state after the banner. *)
Lemma banner_printed (w : World) (port : Z) (st : State) :
  print (repeat_string "-" 50)
    (print "⏹️  Press Ctrl+C to stop the server"
       (print "📱 The site will open automatically in your browser"
          (print ("🌐 URL: http://localhost:" +:+ Py.str_int port)
             (print ("📁 Serving: " +:+ dist_dir w)
                (print "🚀 Starting server..." st))))) =
  {| stdout := stdout st ++ banner w port; actions := actions st |}.
Proof.
  unfold print, banner. cbn [stdout actions]. f_equal.
  rewrite <- !app_assoc. reflexivity.
Qed.

(** [serve_site] in a built tree, by what ends its [try] block. *)
Lemma serve_site_built (w : World) (port : Z) (st : State) :
  dist_exists w = true ->
  serve_site w port st =
    let started := {| stdout := stdout st ++ banner w port; actions := actions st |} in
    let done :=
      match bind_fault w port with
      | Some _ => act (Bind "localhost" port) started
      | None =>
          act ServeForever
            (act (OpenBrowser ("http://localhost:" +:+ Py.str_int port))
               (act (Bind "localhost" port) started))
      end in
    match try_fault w port with
    | None => (Serving, done)
    | Some KeyboardInterrupt =>
        (Returns, print (String "010" "✅ Server stopped by user") done)
    | Some (OSError text) =>
        if Py.contains "Address already in use" text then
          (Returns,
           print ("   python serve.py " +:+ Py.str_int (port + 1))
             (print ("❌ Port " +:+ Py.str_int port
                     +:+ " is already in use. Try a different port:") done))
        else (Returns, print ("❌ Server error: " +:+ text) done)
    | Some (OtherException cls text) => (Raises (OtherException cls text), done)
    end.
Proof.
  intros Hdist. unfold serve_site. rewrite Hdist. cbn [negb]. cbv zeta.
  rewrite banner_printed. unfold try_body, try_fault.
  destruct (bind_fault w port) as [e|].
  - destruct e as [|text|cls text]; try reflexivity;
      destruct (Py.contains "Address already in use" text); reflexivity.
  - destruct (browser_fault w) as [bf|]; destruct (loop_end w) as [e|]; try reflexivity;
      (destruct e as [|text|cls text]; try reflexivity;
       destruct (Py.contains "Address already in use" text); reflexivity).
Qed.

Lemma serve_site_unbuilt (w : World) (port : Z) (st : State) :
  dist_exists w = false ->
  serve_site w port st =
    (Returns,
     print "❌ Error: dist directory not found. Run 'uv run build-site' first." st).
Proof. intros Hdist. unfold serve_site. rewrite Hdist. reflexivity. Qed.

(** X14.  [serve_site] handles every [KeyboardInterrupt] and every
    [OSError], wherever in its [try] block they are raised: it returns
    normally for them.  The only exceptions that leave it are of other
    classes, raised by binding the port or by the serve loop; and it
    keeps serving exactly when [dist] exists, the port was bound and the
    loop does not end. *)
Theorem serve_site_outcome (w : World) (port : Z) (st : State) :
  fst (serve_site w port st) =
    (if dist_exists w then
       match try_fault w port with
       | None => Serving
       | Some (OtherException cls text) => Raises (OtherException cls text)
       | Some _ => Returns
       end
     else Returns) /\
  (forall e,
     fst (serve_site w port st) = Raises e ->
     e <> KeyboardInterrupt /\ (forall text, e <> OSError text) /\
     dist_exists w = true /\ try_fault w port = Some e).
Proof.
  assert (fst (serve_site w port st) =
            (if dist_exists w then
               match try_fault w port with
               | None => Serving
               | Some (OtherException cls text) => Raises (OtherException cls text)
               | Some _ => Returns
               end
             else Returns)) as Hout.
  { destruct (dist_exists w) eqn:Hdist.
    - rewrite (serve_site_built _ _ _ Hdist). cbv zeta.
      destruct (try_fault w port) as [[|text|cls text]|]; try reflexivity;
        destruct (Py.contains "Address already in use" text); reflexivity.
    - rewrite (serve_site_unbuilt _ _ _ Hdist). reflexivity. }
  split; [exact Hout|].
  intros e He. rewrite Hout in He.
  destruct (dist_exists w); [|discriminate].
  destruct (try_fault w port) as [[|text|cls text]|]; try discriminate.
  injection He as <-. repeat split; intros; discriminate.
Qed.

(** The host on which binding raises an [OverflowError]: that exception
    leaves [serve_site]. *)
Lemma serve_site_outcome_witness :
  SamplesMore.port_out_of_range.(dist_exists) = true /\
  try_fault SamplesMore.port_out_of_range 70000 =
    Some (OtherException "OverflowError" "bind(): port must be 0-65535.").
Proof.
  destruct (serve_site_outcome SamplesMore.port_out_of_range 70000 initial) as [_ Hraises].
  destruct (Hraises (OtherException "OverflowError" "bind(): port must be 0-65535."))
    as (_ & _ & Hdist & Hfault).
  - reflexivity.
  - split; [exact Hdist | exact Hfault].
Defined.

(** X15.  What [serve_site] does to the outside is one of three things:
    nothing, when [dist] is missing; one attempt to bind [localhost] at
    the port it was given, when that attempt raises; or that bind, then
    the browser opened at [http://localhost:<port>], then the serve
    loop.  So it binds at most once (no retry, no other port), opens the
    browser only after a successful bind, and enters the loop even when
    the browser could not be opened: what [webbrowser.open] raises
    changes nothing. *)
Theorem serve_site_actions (w : World) (port : Z) (st : State) :
  actions (snd (serve_site w port st)) =
    actions st ++
    (if dist_exists w then
       match bind_fault w port with
       | Some _ => [Bind "localhost" port]
       | None =>
           [ Bind "localhost" port;
             OpenBrowser ("http://localhost:" +:+ Py.str_int port);
             ServeForever ]
       end
     else []) /\
  (forall fault, serve_site (with_browser_fault w fault) port st = serve_site w port st).
Proof.
  split.
  - destruct (dist_exists w) eqn:Hdist.
    + rewrite (serve_site_built _ _ _ Hdist). cbv zeta. unfold try_fault.
      destruct (bind_fault w port) as [e|].
      * destruct e as [|text|cls text]; try reflexivity;
          destruct (Py.contains "Address already in use" text); reflexivity.
      * destruct (loop_end w) as [[|text|cls text]|];
          try destruct (Py.contains "Address already in use" text);
          unfold print, act; cbn [snd actions]; rewrite <- !app_assoc; reflexivity.
    + rewrite (serve_site_unbuilt _ _ _ Hdist). simpl. rewrite app_nil_r. reflexivity.
  - intros fault. destruct (dist_exists w) eqn:Hdist.
    + rewrite !serve_site_built by exact Hdist. reflexivity.
    + rewrite !serve_site_unbuilt by exact Hdist. reflexivity.
Qed.

(** The process around [serve_site]. *)
Lemma script_run (parse_int : string -> option Z) (w : World) (argv : list string) :
  script parse_int w argv =
    match requested_port parse_int argv with
    | None => (Exit 1, print "❌ Invalid port number" initial)
    | Some port =>
        (match fst (serve_site w port initial) with
         | Returns => Exit 0
         | Raises _ => Exit 1
         | Serving => Running
         end,
         snd (serve_site w port initial))
    end.
Proof.
  unfold script, requested_port.
  destruct argv as [|prog [|arg rest]].
  - destruct (serve_site w 8000 initial) as [[| |] s]; reflexivity.
  - destruct (serve_site w 8000 initial) as [[| |] s]; reflexivity.
  - destruct (parse_int arg) as [port|]; [|reflexivity].
    destruct (serve_site w port initial) as [[| |] s]; reflexivity.
Qed.

(** X16.  The exit status of the script: 1 only for a port argument
    that is not a number (the script then prints one line and does
    nothing else) and for an exception [serve_site] does not handle;
    a missing [dist], a port that is taken, any other [OSError] and an
    interrupt all end with status 0.  Without an argument the port is
    8000. *)
Theorem script_exit_status (parse_int : string -> option Z) (w : World)
    (argv : list string) :
  fst (script parse_int w argv) =
    match requested_port parse_int argv with
    | None => Exit 1
    | Some port =>
        if dist_exists w then
          match try_fault w port with
          | None => Running
          | Some (OtherException _ _) => Exit 1
          | Some _ => Exit 0
          end
        else Exit 0
    end /\
  (requested_port parse_int argv = None ->
     snd (script parse_int w argv) = print "❌ Invalid port number" initial /\
     actions (snd (script parse_int w argv)) = []) /\
  (forall prog, requested_port parse_int [prog] = Some 8000%Z).
Proof.
  rewrite script_run. split; [|split; [|reflexivity]].
  - destruct (requested_port parse_int argv) as [port|]; [|reflexivity].
    cbn [fst]. destruct (serve_site_outcome w port initial) as [-> _].
    destruct (dist_exists w); [|reflexivity].
    destruct (try_fault w port) as [[|text|cls text]|]; reflexivity.
  - intros ->. split; reflexivity.
Qed.

(** [serve.py nine] stops at once with status 1. *)
Lemma script_exit_status_witness :
  snd (script Samples.parse_port SamplesMore.serving ["serve.py"; "nine"])
    = print "❌ Invalid port number" initial /\
  actions (snd (script Samples.parse_port SamplesMore.serving ["serve.py"; "nine"])) = [].
Proof.
  destruct (script_exit_status Samples.parse_port SamplesMore.serving
              ["serve.py"; "nine"]) as (_ & Hinvalid & _).
  apply Hinvalid. reflexivity.
Defined.

(** X17.  What [serve_site] prints after its banner, in a built tree:
    the line that the server was stopped when a [KeyboardInterrupt]
    ends the [try] block; for an [OSError], either the two lines about
    the taken port or, when the text does not say that the address is
    in use, the single line [Server error: <text>] without any hint at
    another port; and nothing while it keeps serving or when another
    exception leaves it. *)
Theorem serve_site_log (w : World) (port : Z) (st : State) :
  dist_exists w = true ->
  stdout (snd (serve_site w port st)) =
    stdout st ++ banner w port ++
    match try_fault w port with
    | Some KeyboardInterrupt => [String "010" "✅ Server stopped by user"]
    | Some (OSError text) =>
        if Py.contains "Address already in use" text then
          [ "❌ Port " +:+ Py.str_int port +:+ " is already in use. Try a different port:";
            "   python serve.py " +:+ Py.str_int (port + 1) ]
        else ["❌ Server error: " +:+ text]
    | _ => []
    end.
Proof.
  intros Hdist. rewrite (serve_site_built _ _ _ Hdist). cbv zeta.
  assert (forall a s, stdout (act a s) = stdout s) as Hact by reflexivity.
  assert (stdout (match bind_fault w port with
                  | Some _ =>
                      act (Bind "localhost" port)
                        {| stdout := stdout st ++ banner w port; actions := actions st |}
                  | None =>
                      act ServeForever
                        (act (OpenBrowser ("http://localhost:" +:+ Py.str_int port))
                           (act (Bind "localhost" port)
                              {| stdout := stdout st ++ banner w port;
                                 actions := actions st |}))
                  end) = stdout st ++ banner w port) as Hdone.
  { destruct (bind_fault w port); reflexivity. }
  destruct (try_fault w port) as [[|text|cls text]|];
    try destruct (Py.contains "Address already in use" text);
    unfold print; cbn [snd stdout]; rewrite Hdone, <- ?app_assoc, ?app_nil_r; reflexivity.
Qed.

(** Binding fails for lack of permission: one line, with the text. *)
Lemma serve_site_log_witness :
  stdout (snd (serve_site SamplesMore.no_permission 80 initial)) =
    banner SamplesMore.no_permission 80
    ++ ["❌ Server error: [Errno 13] Permission denied"].
Proof.
  rewrite (serve_site_log SamplesMore.no_permission 80 initial); reflexivity.
Defined.

End ServeExtra.


(* ===================================================================== *)
(** * build.py then deploy.py *)
(* ===================================================================== *)

Module PipelineExtra.
Import Pathlib.

(** Joining the components of a slash-written path gives the path
    back. *)
Lemma concat_split_slash (s : string) : String.concat "/" (Build.split_slash s) = s.
Proof.
  induction s as [|c rest IH]; [reflexivity|].
  cbn [Build.split_slash]. destruct (Ascii.eqb_spec c "/") as [->|Hc].
  - rewrite DeployExtra.concat_slash_cons.
    destruct (Build.split_slash rest) as [|part parts] eqn:Hsplit.
    + destruct (BuildFacts.split_slash_not_nil rest Hsplit).
    + rewrite IH. reflexivity.
  - destruct (Build.split_slash rest) as [|part parts] eqn:Hsplit.
    + destruct (BuildFacts.split_slash_not_nil rest Hsplit).
    + rewrite DeployExtra.concat_slash_cons in *.
      change (String c (part +:+ match parts with
                                 | [] => ""
                                 | _ :: _ => String "/" (String.concat "/" parts)
                                 end) = String c rest).
      rewrite IH. reflexivity.
Qed.

(** Every output path of the mapping names an HTML file. *)
Lemma outputs_are_html (name out : string) :
  In (name, out) Build.templates ->
  Deploy.extra_args (Build.split_slash out)
  = {[ "ContentType" := "text/html; charset=utf-8" ]}.
Proof.
  intros Hin. vm_compute in Hin.
  repeat (destruct Hin as [Hin|Hin]; [injection Hin as <- <-; reflexivity|]).
  destruct Hin.
Qed.

(** X18.  Build, then publish what was built: when the build and the
    publish run both end normally, every page of the template mapping
    is uploaded, with the markup its template rendered to, under the
    key that is the prefix followed by the page's output path as the
    mapping writes it, and as [text/html; charset=utf-8]. *)
Theorem build_then_publish (wb : Build.World) (context : gmap string Build.value)
    (previous : option node) (stb : Build.State)
    (wd : Deploy.World) (st : Deploy.State) :
  Build.run_with wb context previous = (Build.Ok tt, stb) ->
  Deploy.dist wd = Build.dist stb ->
  fst (Deploy.main wd st) = Deploy.Ok tt ->
  forall name out, In (name, out) Build.templates ->
    exists tpl html r,
      Build.get_template wb name = inr tpl /\ tpl context = inr html /\
      In (r, html) (Deploy.plan_of wd) /\
      In r (Deploy.uploads (Deploy.sent_by (Deploy.main wd) st)) /\
      Deploy.Key r = Deploy.prefix_of wd +:+ out /\
      Deploy.ExtraArgs r = {[ "ContentType" := "text/html; charset=utf-8" ]}.
Proof.
  intros Hbuild Hdist Hok name out Hin.
  destruct (BuildExtra.built_pages _ _ _ _ Hbuild) as ([entries Hdir] & Hpages).
  destruct (Hpages _ _ Hin) as (tpl & html & Htpl & Hhtml & Hat).
  rewrite Hdir in Hat. apply BuildExtra.file_at_in_files in Hat.
  apply BuildFacts.files_at_dir_rglob in Hat. rewrite <- Hdir, <- Hdist in Hat.
  destruct (DeployFacts.main_ok _ _ Hok) as [Hcfg Hnone].
  exists tpl, html,
    (Deploy.upload_request wd (Deploy.bucket_of wd) (Deploy.prefix_of wd)
       (Build.split_slash out)).
  split; [exact Htpl|]. split; [exact Hhtml|].
  assert (In (Deploy.upload_request wd (Deploy.bucket_of wd) (Deploy.prefix_of wd)
                (Build.split_slash out), html) (Deploy.plan_of wd)) as Hplan.
  { unfold Deploy.plan_of, Deploy.planned. apply in_map_iff.
    exists (Build.split_slash out, html).
    split; [reflexivity | apply PathFacts.in_regular_files, Hat]. }
  split; [exact Hplan|]. split.
  - rewrite DeployFacts.main_uploads, Hcfg, (DeployFacts.attempted_no_fault _ _ Hnone).
    apply (in_map fst) in Hplan. exact Hplan.
  - split.
    + cbn [Deploy.Key Deploy.upload_request].
      rewrite DeployFacts.object_key_concat, concat_split_slash. reflexivity.
    + apply (outputs_are_html name out Hin).
Qed.

(** The sample build, published: the contact page goes to
    [site/contacto/index.html]. *)
Lemma build_then_publish_witness :
  exists tpl html r,
    Build.get_template (Samples.build_world true) "contact-form.html" = inr tpl /\
    tpl Build.get_site_context = inr html /\
    In (r, html) (Deploy.plan_of SamplesMore.calm_built) /\
    In r (Deploy.uploads
            (Deploy.sent_by (Deploy.main SamplesMore.calm_built) Deploy.initial)) /\
    Deploy.Key r = Deploy.prefix_of SamplesMore.calm_built +:+ "contacto/index.html" /\
    Deploy.ExtraArgs r = {[ "ContentType" := "text/html; charset=utf-8" ]}.
Proof.
  apply (build_then_publish (Samples.build_world true) Build.get_site_context None
           (snd (Build.run_with (Samples.build_world true) Build.get_site_context None))
           SamplesMore.calm_built Deploy.initial).
  - vm_compute. reflexivity.
  - reflexivity.
  - vm_compute. reflexivity.
  - vm_compute. do 6 right. left. reflexivity.
Defined.

End PipelineExtra.
